(** * vue-declassify: the class-to-object translation engine

  A shallow embedding of [src/operations/vue_object.ts].  The ts-morph
  wrappers the engine reads are records of the accessors it calls; the
  TypeScript nodes it builds with [ts.factory] are an inductive type; the
  source unit it mutates and the console it logs to are threaded through a
  state monad in which a thrown exception keeps the state reached so far
  (a JavaScript [throw] does not undo earlier mutations). *)

From Stdlib Require Import String Ascii List Bool Arith Lia.
Import ListNotations.
Open Scope string_scope.

(** ** JavaScript string operations used by the engine *)

Module JsString.

(** The line feed, written ['\n'] in the source. *)
Definition nl : ascii := ascii_of_nat 10.
Definition LF : string := String nl EmptyString.

(** [s.split(sep)] for a one-character separator: the pieces between the
    occurrences of [sep], never the empty list. *)
Fixpoint split (sep : ascii) (s : string) : list string :=
  match s with
  | EmptyString => [EmptyString]
  | String c rest =>
      if Ascii.eqb c sep then EmptyString :: split sep rest
      else match split sep rest with
           | piece :: pieces => String c piece :: pieces
           | [] => [String c EmptyString]
           end
  end.

(** [pieces.join(sep)]. *)
Fixpoint join (sep : string) (pieces : list string) : string :=
  match pieces with
  | [] => EmptyString
  | [piece] => piece
  | piece :: rest => piece ++ sep ++ join sep rest
  end.

(** [s.startsWith(p)]. *)
Definition startsWith (s p : string) : bool := String.prefix p s.

(** [s.endsWith(p)]: the last [p.length] characters of [s] are [p]. *)
Definition endsWith (s p : string) : bool :=
  Nat.leb (String.length p) (String.length s) &&
  String.eqb (String.substring (String.length s - String.length p)
                               (String.length p) s) p.

(** JavaScript truthiness of a string: only the empty string is falsy. *)
Definition truthy (s : string) : bool :=
  match s with EmptyString => false | _ => true end.

(** A character occurs in a string. *)
Fixpoint occurs (c : ascii) (s : string) : bool :=
  match s with
  | EmptyString => false
  | String d rest => Ascii.eqb d c || occurs c rest
  end.

End JsString.

(** ** The ts-morph wrappers the engine reads

    One record per wrapper class, holding the accessors the engine calls on
    it.  An accessor that ts-morph pairs with an [...OrThrow] variant returns
    an [option]. *)

Module JSDoc.
(** [comment] is [compilerNode.comment]; [undefined] is [None]. *)
Record t := { comment : option string; getFullText : string }.
End JSDoc.

Module TypeNode.
Record t := { getText : string }.
End TypeNode.

Module Expression.
Record t := { getText : string }.
End Expression.

Module Statement.
Record t := { getText : string }.
End Statement.

Module Block.
Record t := { getStatementsWithComments : list Statement.t }.
End Block.

Module Signature.
Record t := { getDeclarationText : string }.
End Signature.

Module TsType.
(** The checker's classification of a type: [string], [number] and
    [boolean] are three distinct intrinsic types, every other type is
    [Other]. *)
Inductive Intrinsic := StringType | NumberType | BooleanType | Other.
Record t := { intrinsic : Intrinsic; getCallSignatures : list Signature.t }.
Definition isString (ty : t) : bool :=
  match intrinsic ty with StringType => true | _ => false end.
Definition isNumber (ty : t) : bool :=
  match intrinsic ty with NumberType => true | _ => false end.
Definition isBoolean (ty : t) : bool :=
  match intrinsic ty with BooleanType => true | _ => false end.
End TsType.

Module PropertyDeclaration.
Record t := {
  getName : string;
  getType : TsType.t;
  getTypeNode : option TypeNode.t;
  getInitializer : option Expression.t;
  getJsDocs : list JSDoc.t
}.
End PropertyDeclaration.

Module PropertyAssignment.
(** [name: initializer] inside an object literal.  The compiler's
    [PropertyAssignment] node always has an initializer, so
    [getInitializerOrThrow] cannot throw on it. *)
Record t := { getName : string; getInitializer : Expression.t }.
End PropertyAssignment.

Module ObjectLiteralElementLike.
Record t := { getText : string }.
End ObjectLiteralElementLike.

Module ParameterDeclaration.
Record t := { getName : string; getTypeNode : option TypeNode.t }.
End ParameterDeclaration.

Module GetAccessorDeclaration.
Record t := {
  getReturnTypeNode : option TypeNode.t;
  getBody : option Block.t
}.
End GetAccessorDeclaration.

Module SetAccessorDeclaration.
Record t := {
  getParameters : list ParameterDeclaration.t;
  getBody : option Block.t
}.
End SetAccessorDeclaration.

Module ClassDeclaration.
(** [getPos] is the node's start position, which identifies the node inside
    its source file. *)
Record t := {
  getName : option string;
  getJsDocs : list JSDoc.t;
  getPos : nat
}.
End ClassDeclaration.

(** ** The component model returned by [vue_class.extract] *)

Module VueProp.
Record t := {
  declaration : PropertyDeclaration.t;
  default : option PropertyAssignment.t;
  required : option PropertyAssignment.t
}.
End VueProp.

Module VueComputed.
Record t := {
  getter : option GetAccessorDeclaration.t;
  setter : option SetAccessorDeclaration.t
}.
End VueComputed.

Module VueDecorator.
Record t := { properties : list ObjectLiteralElementLike.t }.
End VueDecorator.

Module Vue.
(** [computed] is a [Record<string, ...>]; the engine only enumerates it
    with [Object.entries] and [Object.keys], so it is kept as the list of its
    entries in enumeration order. *)
Record t := {
  declaration : ClassDeclaration.t;
  decorator : VueDecorator.t;
  props : list VueProp.t;
  data : list PropertyDeclaration.t;
  computed : list (string * VueComputed.t)
}.
End Vue.

(** ** The compiler nodes the engine builds *)

Module Ts.

Inductive SyntaxKind := MultiLineCommentTrivia | AnyKeyword.

Record SynthesizedComment := {
  kind : SyntaxKind;
  text : string;
  hasTrailingNewLine : bool
}.

(** One constructor per [ts.factory] function the engine calls.
    [createMethodDeclaration] is always called with [undefined] decorators,
    modifiers, asterisk token, question token and type parameters, so
    [MethodDeclaration] keeps the name, the parameters, the return type and
    the body.  The [Of...] constructors are the [compilerNode] of a wrapper
    read from the source file.  [Commented] is a node together with its
    synthetic leading comments. *)
#[warnings="-register-all"] Inductive Node :=
| Identifier (text : string)
| StringLiteral (text : string) (isSingleQuote : bool)
| False_
| KeywordTypeNode (kind : SyntaxKind)
| PropertyAssignment (name : Node) (initializer : Node)
| ObjectLiteralExpression (properties : list Node) (multiLine : bool)
| MethodDeclaration (name : Node) (parameters : list Node)
                    (type : option Node) (body : Node)
| Block (statements : list Node) (multiLine : bool)
| ReturnStatement (expression : Node)
| ExpressionStatement (expression : Node)
| CallExpression (expression : Node) (arguments : list Node)
| OfPropertyAssignment (node : PropertyAssignment.t)
| OfObjectLiteralElement (node : ObjectLiteralElementLike.t)
| OfTypeNode (node : TypeNode.t)
| OfParameter (node : ParameterDeclaration.t)
| Commented (comments : list SynthesizedComment) (node : Node).

(** [ts.addSyntheticLeadingComment]: appends one comment to the node's
    synthetic leading comments and returns the node. *)
Definition addSyntheticLeadingComment (node : Node) (kind : SyntaxKind)
    (text : string) (hasTrailingNewLine : bool) : Node :=
  let comment := Build_SynthesizedComment kind text hasTrailingNewLine in
  match node with
  | Commented comments inner => Commented (comments ++ [comment]) inner
  | _ => Commented [comment] node
  end.

(** [ts.getSyntheticLeadingComments]. *)
Definition getSyntheticLeadingComments (node : Node) : list SynthesizedComment :=
  match node with
  | Commented comments _ => comments
  | _ => []
  end.

End Ts.

(** ** The source file the engine rewrites *)

Module ImportDeclaration.
Record t := { moduleSpecifier : string; namedImports : list string }.
End ImportDeclaration.

Module ExportAssignment.
(** The structure handed to [addExportAssignment]; [leadingTrivia] is the
    list of lines its writer callback writes. *)
Record t := {
  expression : string;
  isExportEquals : bool;
  leadingTrivia : list string
}.
End ExportAssignment.

Module SourceFile.

Inductive TopLevel :=
| Class (declaration : ClassDeclaration.t)
| Export (assignment : ExportAssignment.t)
| Text (text : string).

Record t := {
  imports : list ImportDeclaration.t;
  statements : list TopLevel
}.

Definition isDeclaration (declaration : ClassDeclaration.t)
    (statement : TopLevel) : bool :=
  match statement with
  | Class other =>
      Nat.eqb (ClassDeclaration.getPos other) (ClassDeclaration.getPos declaration)
  | _ => false
  end.

(** [declaration.remove()]: the declaration leaves its source file. *)
Definition remove (declaration : ClassDeclaration.t) (source : t) : t :=
  {| imports := imports source;
     statements :=
       filter (fun statement => negb (isDeclaration declaration statement))
              (statements source) |}.

(** [source.addExportAssignment(structure)]: a new last statement. *)
Definition addExportAssignment (structure : ExportAssignment.t) (source : t) : t :=
  {| imports := imports source;
     statements := statements source ++ [Export structure] |}.

End SourceFile.

(** ** [imports.ensure]

    [src/operations/imports.ts] is not among the sources; the module below
    follows the interface the spec gives for it. *)

Module Imports.

(** Modelled from the spec: the import declarations of one module, for
    [ensure] of the missing [imports.ts]. *)
Definition isModule (moduleName : string) (decl : ImportDeclaration.t) : bool :=
  String.eqb (ImportDeclaration.moduleSpecifier decl) moduleName.

(** Modelled from the spec: a named import of a declaration, for [ensure] of
    the missing [imports.ts]. *)
Definition hasName (name : string) (decl : ImportDeclaration.t) : bool :=
  existsb (String.eqb name) (ImportDeclaration.namedImports decl).

(** Modelled from the spec: part of [ensure] of the missing [imports.ts];
    [name] is already imported from [moduleName]. *)
Definition imported (moduleName name : string)
    (imports : list ImportDeclaration.t) : bool :=
  existsb (fun decl => isModule moduleName decl && hasName name decl) imports.

(** Modelled from the spec: part of [ensure] of the missing [imports.ts];
    adds [name] to the first import declaration of [moduleName], or reports
    that there is none. *)
Fixpoint addToFirst (moduleName name : string)
    (imports : list ImportDeclaration.t) : option (list ImportDeclaration.t) :=
  match imports with
  | [] => None
  | decl :: rest =>
      if isModule moduleName decl then
        Some ({| ImportDeclaration.moduleSpecifier := ImportDeclaration.moduleSpecifier decl;
                 ImportDeclaration.namedImports :=
                   ImportDeclaration.namedImports decl ++ [name] |} :: rest)
      else option_map (cons decl) (addToFirst moduleName name rest)
  end.

(** Modelled from the spec: [ensure] of the missing [imports.ts] for one
    name. *)
Definition ensureNamed (moduleName : string)
    (imports : list ImportDeclaration.t) (name : string)
    : list ImportDeclaration.t :=
  if imported moduleName name imports then imports
  else match addToFirst moduleName name imports with
       | Some imports' => imports'
       | None =>
           imports ++ [{| ImportDeclaration.moduleSpecifier := moduleName;
                          ImportDeclaration.namedImports := [name] |}]
       end.

(** Modelled from the spec: [ensure] of [src/operations/imports.ts], which
    is not among the sources.  "[ensure(sourceUnit, moduleName, { named:
    [identifiers] })]: idempotently guarantees the listed named imports exist
    in the unit, deduplicating across repeated calls": a listed name that is
    already imported from the module is left alone, a missing one is added
    to the module's import declaration, which is created when the unit has
    none; nothing but the imports of the unit changes. *)
Definition ensure (source : SourceFile.t) (moduleName : string)
    (named : list string) : SourceFile.t :=
  {| SourceFile.imports :=
       fold_left (ensureNamed moduleName) named (SourceFile.imports source);
     SourceFile.statements := SourceFile.statements source |}.

(** How many times [name] is imported from [moduleName] in the unit. *)
Definition occurrences (moduleName name : string) (source : SourceFile.t) : nat :=
  count_occ string_dec
    (flat_map ImportDeclaration.namedImports
       (filter (isModule moduleName) (SourceFile.imports source)))
    name.

End Imports.

(** ** The effects of the engine

    The engine mutates the source file it is given, writes to the console and
    throws.  The source file and the console form the state; a computation
    returns a completion (a value or a thrown exception) and the state it
    reached, which is kept when it throws. *)

Record World := {
  source : SourceFile.t;
  console : list string
}.

(** [Error] is [new Error(message)]; [InvalidOperationError] is what a
    ts-morph [...OrThrow] accessor throws, recorded with the accessor's
    name. *)
Inductive Exception :=
| Error (message : string)
| InvalidOperationError (accessor : string).

Inductive Completion (A : Type) :=
| Normal (value : A)
| Throw (exception : Exception).
Arguments Normal {A} value.
Arguments Throw {A} exception.

Definition M (A : Type) : Type := World -> Completion A * World.

Definition ret {A} (value : A) : M A := fun w => (Normal value, w).

Definition bind {A B} (m : M A) (k : A -> M B) : M B :=
  fun w =>
    match m w with
    | (Normal value, w') => k value w'
    | (Throw exception, w') => (Throw exception, w')
    end.

Definition throw {A} (exception : Exception) : M A :=
  fun w => (Throw exception, w).

Notation "x <- m ;; k" := (bind m (fun x => k))
  (at level 61, m at next level, right associativity).
Notation "m ;; k" := (bind m (fun _ => k))
  (at level 61, right associativity).

(** The value of an [...OrThrow] accessor. *)
Definition orThrow {A} (accessor : string) (value : option A) : M A :=
  match value with
  | Some a => ret a
  | None => throw (InvalidOperationError accessor)
  end.

(** [console.log(message)]. *)
Definition console_log (message : string) : M unit :=
  fun w => (Normal tt, {| source := source w; console := console w ++ [message] |}).

(** A mutation of the source file. *)
Definition modifySource (f : SourceFile.t -> SourceFile.t) : M unit :=
  fun w => (Normal tt, {| source := f (source w); console := console w |}).

(** [imports.ensure(source, moduleName, { named })]. *)
Definition imports_ensure (moduleName : string) (named : list string) : M unit :=
  modifySource (fun s => Imports.ensure s moduleName named).

(** [items.map(f)] for an [f] with effects: left to right. *)
Fixpoint mapM {A B} (f : A -> M B) (items : list A) : M (list B) :=
  match items with
  | [] => ret []
  | item :: rest =>
      value <- f item ;;
      values <- mapM f rest ;;
      ret (value :: values)
  end.

(** [for (const item of items) body], the loop carrying the array its body
    pushes to. *)
Fixpoint forOf {A B} (items : list A) (body : list B -> A -> M (list B))
    (properties : list B) : M (list B) :=
  match items with
  | [] => ret properties
  | item :: rest =>
      properties' <- body properties item ;;
      forOf rest body properties'
  end.

(** ** The engine, [src/operations/vue_object.ts]

    Every function of the file takes the source file as its first argument
    [source]; it is the mutable object held in the state, so the argument is
    left implicit here. *)

Definition createDocumentation (target : Ts.Node) (docs : list JSDoc.t) : Ts.Node :=
  match docs with
  | doc :: _ =>
      match JSDoc.comment doc with
      | Some comment =>
          if JsString.truthy comment then
            Ts.addSyntheticLeadingComment
              target
              Ts.MultiLineCommentTrivia
              ("*" ++ JsString.LF ++
               JsString.join JsString.LF
                 (map (fun line => " * " ++ line)
                      (JsString.split JsString.nl comment))
               ++ JsString.LF ++ " ")
              true
          else target
      | None => target
      end
  | [] => target
  end.

Definition transformBlock (block : Block.t) (multiline : option bool) : Ts.Node :=
  Ts.Block
    (map (fun statement =>
            Ts.ExpressionStatement (Ts.Identifier (Statement.getText statement)))
         (Block.getStatementsWithComments block))
    true.

Definition classNameToPropName (vue : Vue.t) : M Ts.Node :=
  name <- orThrow "getNameOrThrow" (ClassDeclaration.getName (Vue.declaration vue)) ;;
  ret (Ts.PropertyAssignment (Ts.Identifier "name") (Ts.StringLiteral name true)).

Definition classPropTypeToObjectPropType (prop : VueProp.t) : M Ts.Node :=
  let type := PropertyDeclaration.getType (VueProp.declaration prop) in
  initializer <-
    (if TsType.isString type then ret (Ts.Identifier "String")
     else if TsType.isNumber type then ret (Ts.Identifier "Number")
     else if TsType.isBoolean type then ret (Ts.Identifier "Boolean")
     else
       imports_ensure "vue" ["PropType"] ;;
       let type := PropertyDeclaration.getType (VueProp.declaration prop) in
       typeNode <- orThrow "getTypeNodeOrThrow"
                     (PropertyDeclaration.getTypeNode (VueProp.declaration prop)) ;;
       let actualType := TypeNode.getText typeNode in
       let baseType :=
         if Nat.ltb 0 (List.length (TsType.getCallSignatures type)) then "Function"
         else if JsString.startsWith actualType "Array<"
                 || JsString.endsWith actualType "[]" then "Array"
         else "Object" in
       ret (Ts.Identifier (baseType ++ " as PropType<" ++ actualType ++ ">"))) ;;
  ret (Ts.PropertyAssignment (Ts.Identifier "type") initializer).

Definition classPropOptionsToObjectPropOptions (prop : VueProp.t) : list Ts.Node :=
  match VueProp.default prop with
  | Some default =>
      [Ts.PropertyAssignment
         (Ts.Identifier "default")
         (Ts.Identifier (Expression.getText (PropertyAssignment.getInitializer default)))]
  | None =>
      match VueProp.required prop with
      | Some required => [Ts.OfPropertyAssignment required]
      | None =>
          [Ts.PropertyAssignment (Ts.Identifier "required") Ts.False_]
      end
  end.

Definition classPropToObjectProp (prop : VueProp.t) : M Ts.Node :=
  let name := PropertyDeclaration.getName (VueProp.declaration prop) in
  type <- classPropTypeToObjectPropType prop ;;
  let options := classPropOptionsToObjectPropOptions prop in
  ret (createDocumentation
         (Ts.PropertyAssignment
            (Ts.Identifier name)
            (Ts.ObjectLiteralExpression ([type] ++ options)%list true))
         (PropertyDeclaration.getJsDocs (VueProp.declaration prop))).

Definition classPropsToObjectProps (vue : Vue.t) : M Ts.Node :=
  props <- mapM classPropToObjectProp (Vue.props vue) ;;
  ret (Ts.PropertyAssignment
         (Ts.Identifier "props")
         (Ts.ObjectLiteralExpression props true)).

(** The body of the loop of [classDataToObjectData]. *)
Definition classDataToObjectData_body (properties : list Ts.Node)
    (declaration : PropertyDeclaration.t) : M (list Ts.Node) :=
  value <- orThrow "getInitializerOrThrow"
             (PropertyDeclaration.getInitializer declaration) ;;
  let type := PropertyDeclaration.getTypeNode declaration in
  let initializer := Ts.Identifier (Expression.getText value) in
  let initializer :=
    match type with
    | Some type =>
        Ts.Identifier (Expression.getText value ++ " as " ++ TypeNode.getText type)
    | None => initializer
    end in
  ret (properties ++
       [createDocumentation
          (Ts.PropertyAssignment
             (Ts.Identifier (PropertyDeclaration.getName declaration))
             initializer)
          (PropertyDeclaration.getJsDocs declaration)])%list.

Definition classDataToObjectData (vue : Vue.t) : M Ts.Node :=
  properties <- forOf (Vue.data vue) classDataToObjectData_body [] ;;
  ret (Ts.MethodDeclaration
         (Ts.Identifier "data")
         []
         None
         (Ts.Block
            [Ts.ReturnStatement (Ts.ObjectLiteralExpression properties true)]
            true)).

Definition classComputedGetterToObjectComputedGetter (name : string)
    (getter : GetAccessorDeclaration.t) : M Ts.Node :=
  getterReturnType <-
    match GetAccessorDeclaration.getReturnTypeNode getter with
    | Some returnType => ret (Ts.OfTypeNode returnType)
    | None =>
        console_log ("Computed getter 「" ++ name ++
                     "」 will require a manual return type.") ;;
        ret (Ts.KeywordTypeNode Ts.AnyKeyword)
    end ;;
  body <- orThrow "getBodyOrThrow" (GetAccessorDeclaration.getBody getter) ;;
  ret (Ts.MethodDeclaration
         (Ts.Identifier name)
         []
         (Some getterReturnType)
         (transformBlock body (Some true))).

Definition classComputedPropertyToObjectComputedProperty (name : string)
    (getter : GetAccessorDeclaration.t) (setter : SetAccessorDeclaration.t)
    : M Ts.Node :=
  match SetAccessorDeclaration.getParameters setter with
  | [] => throw (Error "Computed setter doesn't seem to have a parameter.")
  | setParameter :: _ =>
      setterBody <- orThrow "getBodyOrThrow" (SetAccessorDeclaration.getBody setter) ;;
      let setterDeclaration :=
        Ts.MethodDeclaration
          (Ts.Identifier "set")
          [Ts.OfParameter setParameter]
          None
          (transformBlock setterBody (Some true)) in
      getterReturnType <-
        match ParameterDeclaration.getTypeNode setParameter with
        | Some parameterType => ret (Ts.OfTypeNode parameterType)
        | None =>
            console_log ("Computed getter for 「" ++ name ++
                         "」 will require a manual return type.") ;;
            ret (Ts.KeywordTypeNode Ts.AnyKeyword)
        end ;;
      getterBody <- orThrow "getBodyOrThrow" (GetAccessorDeclaration.getBody getter) ;;
      let getterDeclaration :=
        Ts.MethodDeclaration
          (Ts.Identifier "get")
          []
          (Some getterReturnType)
          (transformBlock getterBody None) in
      ret (Ts.PropertyAssignment
             (Ts.Identifier name)
             (Ts.ObjectLiteralExpression [getterDeclaration; setterDeclaration] true))
  end.

(** The body of the loop of [classComputedToObjectComputed] over
    [Object.entries(vue.computed)]. *)
Definition classComputedToObjectComputed_body (properties : list Ts.Node)
    (entry : string * VueComputed.t) : M (list Ts.Node) :=
  let '(name, accessors) := entry in
  match VueComputed.getter accessors with
  | Some getter =>
      match VueComputed.setter accessors with
      | Some setter =>
          property <- classComputedPropertyToObjectComputedProperty name getter setter ;;
          ret (properties ++ [property])%list
      | None =>
          property <- classComputedGetterToObjectComputedGetter name getter ;;
          ret (properties ++ [property])%list
      end
  | None =>
      match VueComputed.setter accessors with
      | Some _ => throw (Error "Found an illegal computed setter without a getter.")
      | None => ret properties
      end
  end.

Definition classComputedToObjectComputed (vue : Vue.t) : M Ts.Node :=
  properties <- forOf (Vue.computed vue) classComputedToObjectComputed_body [] ;;
  ret (Ts.PropertyAssignment
         (Ts.Identifier "computed")
         (Ts.ObjectLiteralExpression properties true)).

(** [classToObject] calls three functions that are not part of the file:
    [vue_class.extract], the extraction of the component model, and
    ts-morph's [printNode] and [formatText].  They are parameters of the
    engine. *)
Section Engine.

Variable extract : SourceFile.t -> option Vue.t.
Variable printNode : Ts.Node -> string.
Variable formatText : SourceFile.t -> SourceFile.t.

(** Reads the source file object. *)
Definition getSource : M SourceFile.t := fun w => (Normal (source w), w).

Definition classToObject : M unit :=
  source <- getSource ;;
  match extract source with
  | None => ret tt
  | Some vue =>
      name <- classNameToPropName vue ;;
      let properties := [name] in
      let properties :=
        (properties ++
         map Ts.OfObjectLiteralElement
             (VueDecorator.properties (Vue.decorator vue)))%list in
      properties <-
        (if Nat.ltb 0 (List.length (Vue.props vue)) then
           props <- classPropsToObjectProps vue ;;
           ret (properties ++ [props])%list
         else ret properties) ;;
      properties <-
        (if Nat.ltb 0 (List.length (Vue.data vue)) then
           data <- classDataToObjectData vue ;;
           ret (properties ++ [data])%list
         else ret properties) ;;
      properties <-
        (if Nat.ltb 0 (List.length (Vue.computed vue)) then
           computed <- classComputedToObjectComputed vue ;;
           ret (properties ++ [computed])%list
         else ret properties) ;;
      let component :=
        Ts.CallExpression
          (Ts.Identifier "Vue.extend")
          [Ts.ObjectLiteralExpression properties true] in
      let documentation :=
        match ClassDeclaration.getJsDocs (Vue.declaration vue) with
        | doc :: _ => Some (JSDoc.getFullText doc)
        | [] => None
        end in
      modifySource (SourceFile.remove (Vue.declaration vue)) ;;
      modifySource
        (SourceFile.addExportAssignment
           {| ExportAssignment.expression := printNode component;
              ExportAssignment.isExportEquals := false;
              ExportAssignment.leadingTrivia :=
                match documentation with
                | Some text => if JsString.truthy text then [text] else []
                | None => []
                end |}) ;;
      modifySource formatText
  end.

End Engine.

(** ** Sample inputs *)

(** A source file holding one class declaration, and the initial state. *)
Definition sampleClass : ClassDeclaration.t :=
  {| ClassDeclaration.getName := Some "Counter";
     ClassDeclaration.getJsDocs := [];
     ClassDeclaration.getPos := 0 |}.

Definition sampleSource : SourceFile.t :=
  {| SourceFile.imports := [];
     SourceFile.statements := [SourceFile.Class sampleClass] |}.

Definition sampleWorld : World :=
  {| source := sampleSource; console := [] |}.

Definition plainType (intrinsic : TsType.Intrinsic) : TsType.t :=
  {| TsType.intrinsic := intrinsic; TsType.getCallSignatures := [] |}.

Definition typeNode (text : string) : TypeNode.t := {| TypeNode.getText := text |}.

Definition field (name : string) (type : TsType.t) (annotation : option string)
    (initializer : option string) : PropertyDeclaration.t :=
  {| PropertyDeclaration.getName := name;
     PropertyDeclaration.getType := type;
     PropertyDeclaration.getTypeNode := option_map typeNode annotation;
     PropertyDeclaration.getInitializer :=
       option_map Expression.Build_t initializer;
     PropertyDeclaration.getJsDocs := [] |}.

Definition bareProp (declaration : PropertyDeclaration.t) : VueProp.t :=
  {| VueProp.declaration := declaration;
     VueProp.default := None;
     VueProp.required := None |}.

(** [@Prop() callbacks: Array<number> & (() => void)]: an intersection with
    a function type has a call signature, and its text starts with
    [Array<]. *)
Definition callableArrayProp : VueProp.t :=
  bareProp
    (field "callbacks"
       {| TsType.intrinsic := TsType.Other;
          TsType.getCallSignatures :=
            [{| Signature.getDeclarationText := "() => void" |}] |}
       (Some "Array<number> & (() => void)")
       None).

(** [@Prop() item: MyInterface]. *)
Definition interfaceProp : VueProp.t :=
  bareProp (field "item" (plainType TsType.Other) (Some "MyInterface") None).

(** [@Prop() items: string[]]. *)
Definition arrayProp : VueProp.t :=
  bareProp (field "items" (plainType TsType.Other) (Some "string[]") None).

(** [@Prop() item = makeItem()]: no annotation, an inferred object type. *)
Definition unannotatedProp : VueProp.t :=
  bareProp (field "item" (plainType TsType.Other) None (Some "makeItem()")).

(** [@Prop({ default: "x" }) label: string]. *)
Definition labelProp : VueProp.t :=
  {| VueProp.declaration :=
       field "label" (plainType TsType.StringType) (Some "string") None;
     VueProp.default :=
       Some {| PropertyAssignment.getName := "default";
               PropertyAssignment.getInitializer :=
                 {| Expression.getText := "'x'" |} |};
     VueProp.required := None |}.

Definition block (statements : list string) : Block.t :=
  {| Block.getStatementsWithComments := map Statement.Build_t statements |}.

Definition componentOf (props : list VueProp.t) (data : list PropertyDeclaration.t)
    (computed : list (string * VueComputed.t)) : Vue.t :=
  {| Vue.declaration := sampleClass;
     Vue.decorator := {| VueDecorator.properties := [] |};
     Vue.props := props;
     Vue.data := data;
     Vue.computed := computed |}.

(** A documentation block of two lines. *)
Definition sampleDoc : JSDoc.t :=
  {| JSDoc.comment := Some ("The label." ++ JsString.LF ++ "Shown above the counter.");
     JSDoc.getFullText := "/** The label. */" |}.

Definition emptyDoc : JSDoc.t :=
  {| JSDoc.comment := None; JSDoc.getFullText := "/** */" |}.

(** [@Prop() load: () => string[]]: a function type, whose text ends with
    [[]]. *)
Definition loaderProp : VueProp.t :=
  bareProp
    (field "load"
       {| TsType.intrinsic := TsType.Other;
          TsType.getCallSignatures :=
            [{| Signature.getDeclarationText := "() => string[]" |}] |}
       (Some "() => string[]")
       None).

(** [@Prop({ required: true }) count: number]. *)
Definition countProp : VueProp.t :=
  {| VueProp.declaration :=
       field "count" (plainType TsType.NumberType) (Some "number") None;
     VueProp.default := None;
     VueProp.required :=
       Some {| PropertyAssignment.getName := "required";
               PropertyAssignment.getInitializer :=
                 {| Expression.getText := "true" |} |} |}.

(** ** Vocabulary of the statements *)

(** The [type] entry of a prop object with the given initializer text. *)
Definition typeEntry (initializer : string) : Ts.Node :=
  Ts.PropertyAssignment (Ts.Identifier "type") (Ts.Identifier initializer).

(** The state after [imports.ensure(source, 'vue', { named: ['PropType'] })]. *)
Definition withPropType (w : World) : World :=
  {| source := Imports.ensure (source w) "vue" ["PropType"];
     console := console w |}.

(** The state after [console.log(message)]. *)
Definition logged (message : string) (w : World) : World :=
  {| source := source w; console := (console w ++ [message])%list |}.

(** The prop's type is none of [string], [number], [boolean]. *)
Definition nonPrimitive (prop : VueProp.t) : Prop :=
  TsType.intrinsic (PropertyDeclaration.getType (VueProp.declaration prop))
  = TsType.Other.

(** The entry [classDataToObjectData] emits for a data field whose
    initializer is [value]. *)
Definition dataEntry (declaration : PropertyDeclaration.t) (value : Expression.t)
    : Ts.Node :=
  createDocumentation
    (Ts.PropertyAssignment
       (Ts.Identifier (PropertyDeclaration.getName declaration))
       (Ts.Identifier
          match PropertyDeclaration.getTypeNode declaration with
          | Some type => Expression.getText value ++ " as " ++ TypeNode.getText type
          | None => Expression.getText value
          end))
    (PropertyDeclaration.getJsDocs declaration).

(** The [data] method around the given entries. *)
Definition dataMethod (entries : list Ts.Node) : Ts.Node :=
  Ts.MethodDeclaration
    (Ts.Identifier "data")
    []
    None
    (Ts.Block [Ts.ReturnStatement (Ts.ObjectLiteralExpression entries true)] true).

(** [count = 1], [names: string[] = []] and [pending: boolean;]. *)
Definition countField : PropertyDeclaration.t :=
  field "count" (plainType TsType.NumberType) None (Some "1").

Definition namesField : PropertyDeclaration.t :=
  field "names" (plainType TsType.Other) (Some "string[]") (Some "[]").

Definition pendingField : PropertyDeclaration.t :=
  field "pending" (plainType TsType.BooleanType) (Some "boolean") None.

(** [get double(): number { return this.count * 2 }]. *)
Definition doubleGetter : GetAccessorDeclaration.t :=
  {| GetAccessorDeclaration.getReturnTypeNode := Some (typeNode "number");
     GetAccessorDeclaration.getBody := Some (block ["return this.count * 2"]) |}.

(** [get title() { return this.label }]. *)
Definition titleGetter : GetAccessorDeclaration.t :=
  {| GetAccessorDeclaration.getReturnTypeNode := None;
     GetAccessorDeclaration.getBody := Some (block ["return this.label"]) |}.

(** [abstract get total(): number;], a getter without a body. *)
Definition abstractGetter : GetAccessorDeclaration.t :=
  {| GetAccessorDeclaration.getReturnTypeNode := Some (typeNode "number");
     GetAccessorDeclaration.getBody := None |}.

(** [set title(value: string) { this.$emit('title', value) }]. *)
Definition titleSetter : SetAccessorDeclaration.t :=
  {| SetAccessorDeclaration.getParameters :=
       [{| ParameterDeclaration.getName := "value";
           ParameterDeclaration.getTypeNode := Some (typeNode "string") |}];
     SetAccessorDeclaration.getBody := Some (block ["this.$emit('title', value)"]) |}.

(** [set title(value) { this.$emit('title', value) }]. *)
Definition untypedSetter : SetAccessorDeclaration.t :=
  {| SetAccessorDeclaration.getParameters :=
       [{| ParameterDeclaration.getName := "value";
           ParameterDeclaration.getTypeNode := None |}];
     SetAccessorDeclaration.getBody := Some (block ["this.$emit('title', value)"]) |}.

(** [set title() {}]. *)
Definition bareSetter : SetAccessorDeclaration.t :=
  {| SetAccessorDeclaration.getParameters := [];
     SetAccessorDeclaration.getBody := Some (block []) |}.

Definition getterOnly (getter : GetAccessorDeclaration.t) : VueComputed.t :=
  {| VueComputed.getter := Some getter; VueComputed.setter := None |}.

Definition getterAndSetter (getter : GetAccessorDeclaration.t)
    (setter : SetAccessorDeclaration.t) : VueComputed.t :=
  {| VueComputed.getter := Some getter; VueComputed.setter := Some setter |}.

Definition setterOnly (setter : SetAccessorDeclaration.t) : VueComputed.t :=
  {| VueComputed.getter := None; VueComputed.setter := Some setter |}.

(** The diagnostics of the computed translator. *)
Definition getterDiagnostic (name : string) : string :=
  "Computed getter 「" ++ name ++ "」 will require a manual return type.".

Definition pairDiagnostic (name : string) : string :=
  "Computed getter for 「" ++ name ++ "」 will require a manual return type.".

(** The method emitted for a getter without setter. *)
Definition getterMethod (name : string) (returnType : Ts.Node) (body : Block.t)
    : Ts.Node :=
  Ts.MethodDeclaration (Ts.Identifier name) [] (Some returnType)
    (transformBlock body (Some true)).

(** The entry emitted for a getter with a setter. *)
Definition accessorPair (name : string) (returnType : Ts.Node)
    (getterBody : Block.t) (setParameter : ParameterDeclaration.t)
    (setterBody : Block.t) : Ts.Node :=
  Ts.PropertyAssignment
    (Ts.Identifier name)
    (Ts.ObjectLiteralExpression
       [Ts.MethodDeclaration (Ts.Identifier "get") [] (Some returnType)
          (transformBlock getterBody None);
        Ts.MethodDeclaration (Ts.Identifier "set") [Ts.OfParameter setParameter] None
          (transformBlock setterBody (Some true))]
       true).

(** A component with the prop [label], the data field [count] and the
    computed getter [double]. *)
Definition counterComponent : Vue.t :=
  componentOf [labelProp] [countField] [("double", getterOnly doubleGetter)].

(** A component with a prop of an interface type and a computed setter
    that has no getter. *)
Definition writeOnlyComponent : Vue.t :=
  componentOf [interfaceProp] [] [("title", setterOnly titleSetter)].

(** Stand-ins for the three parameters of the engine: an extraction that
    finds the given component (or none), a printer that only shows the
    callee of a call, and a formatter that leaves the text alone. *)
Definition extracting (vue : option Vue.t) : SourceFile.t -> option Vue.t :=
  fun _ => vue.

Definition calleePrinter (node : Ts.Node) : string :=
  match node with
  | Ts.CallExpression (Ts.Identifier callee) _ => callee ++ "(...)"
  | _ => ""
  end.

Definition noFormatting (source : SourceFile.t) : SourceFile.t := source.

(** The object literal handed to [Vue.extend]. *)
Definition componentCall (properties : list Ts.Node) : Ts.Node :=
  Ts.CallExpression
    (Ts.Identifier "Vue.extend")
    [Ts.ObjectLiteralExpression properties true].

(** ** Reading the emitted nodes *)

(** The key of an emitted object-literal element: the name of a property
    assignment or of a method, looked up under synthetic comments. *)
Fixpoint propertyName (node : Ts.Node) : option string :=
  match node with
  | Ts.PropertyAssignment (Ts.Identifier name) _ => Some name
  | Ts.MethodDeclaration (Ts.Identifier name) _ _ _ => Some name
  | Ts.OfPropertyAssignment assignment => Some (PropertyAssignment.getName assignment)
  | Ts.Commented _ inner => propertyName inner
  | _ => None
  end.

(** The text of an emitted statement that is an identifier used as an
    expression statement. *)
Definition statementText (statement : Ts.Node) : option string :=
  match statement with
  | Ts.ExpressionStatement (Ts.Identifier text) => Some text
  | _ => None
  end.

(** The statements of an emitted block. *)
Definition blockStatements (node : Ts.Node) : list Ts.Node :=
  match node with
  | Ts.Block statements _ => statements
  | _ => []
  end.

(** ** What each translator needs to complete *)

(** The [if] chain of [classPropTypeToObjectPropType] reaches its last
    branch. *)
Definition nonPrimitiveb (prop : VueProp.t) : bool :=
  let type := PropertyDeclaration.getType (VueProp.declaration prop) in
  negb (TsType.isString type || TsType.isNumber type || TsType.isBoolean type).

Definition isSome {A} (value : option A) : bool :=
  match value with Some _ => true | None => false end.

(** A prop that [classPropToObjectProp] can translate. *)
Definition propOk (prop : VueProp.t) : bool :=
  negb (nonPrimitiveb prop)
  || isSome (PropertyDeclaration.getTypeNode (VueProp.declaration prop)).

(** A data field that [classDataToObjectData] can translate. *)
Definition dataOk (declaration : PropertyDeclaration.t) : bool :=
  isSome (PropertyDeclaration.getInitializer declaration).

(** A computed entry that [classComputedToObjectComputed] can translate. *)
Definition computedOk (entry : string * VueComputed.t) : bool :=
  match VueComputed.getter (snd entry), VueComputed.setter (snd entry) with
  | Some getter, Some setter =>
      match SetAccessorDeclaration.getParameters setter with
      | [] => false
      | _ :: _ =>
          isSome (SetAccessorDeclaration.getBody setter)
          && isSome (GetAccessorDeclaration.getBody getter)
      end
  | Some getter, None => isSome (GetAccessorDeclaration.getBody getter)
  | None, Some _ => false
  | None, None => true
  end.

Definition componentOk (vue : Vue.t) : bool :=
  isSome (ClassDeclaration.getName (Vue.declaration vue))
  && forallb propOk (Vue.props vue)
  && forallb dataOk (Vue.data vue)
  && forallb computedOk (Vue.computed vue).

(** The key a computed entry is emitted under, if it is emitted. *)
Definition computedKey (entry : string * VueComputed.t) : list string :=
  match VueComputed.getter (snd entry) with
  | Some _ => [fst entry]
  | None => []
  end.

(** The diagnostic a computed entry logs when it is translated. *)
Definition computedDiagnostics (entry : string * VueComputed.t) : list string :=
  match VueComputed.getter (snd entry), VueComputed.setter (snd entry) with
  | Some getter, Some setter =>
      match SetAccessorDeclaration.getParameters setter with
      | setParameter :: _ =>
          match ParameterDeclaration.getTypeNode setParameter with
          | Some _ => []
          | None => [pairDiagnostic (fst entry)]
          end
      | [] => []
      end
  | Some getter, None =>
      match GetAccessorDeclaration.getReturnTypeNode getter with
      | Some _ => []
      | None => [getterDiagnostic (fst entry)]
      end
  | None, _ => []
  end.

(** The state the props translator leaves: the import is ensured as soon
    as one prop is not primitive. *)
Definition afterProps (vue : Vue.t) (w : World) : World :=
  if existsb nonPrimitiveb (Vue.props vue) then withPropType w else w.

(** The leading trivia [classToObject] writes in front of the export. *)
Definition exportTrivia (vue : Vue.t) : list string :=
  match ClassDeclaration.getJsDocs (Vue.declaration vue) with
  | doc :: _ =>
      if JsString.truthy (JSDoc.getFullText doc) then [JSDoc.getFullText doc] else []
  | [] => []
  end.

(** More sample inputs. *)

(** [class extends Vue {}], a class expression's anonymous declaration. *)
Definition unnamedComponent : Vue.t :=
  {| Vue.declaration :=
       {| ClassDeclaration.getName := None;
          ClassDeclaration.getJsDocs := [];
          ClassDeclaration.getPos := 0 |};
     Vue.decorator := {| VueDecorator.properties := [] |};
     Vue.props := [interfaceProp];
     Vue.data := [];
     Vue.computed := [] |}.

(** A mapping with an entry that has no accessor at all. *)
Definition emptyAccessors : VueComputed.t :=
  {| VueComputed.getter := None; VueComputed.setter := None |}.

Definition mixedComputed : list (string * VueComputed.t) :=
  [("title", getterAndSetter titleGetter untypedSetter);
   ("ghost", emptyAccessors);
   ("double", getterOnly doubleGetter);
   ("label", getterOnly titleGetter)].

Definition otherDoc : JSDoc.t :=
  {| JSDoc.comment := Some "The count.";
     JSDoc.getFullText := "/** The count. */" |}.

(** The state after the given lines were logged, in order. *)
Definition withLogs (lines : list string) (w : World) : World :=
  {| source := source w; console := (console w ++ lines)%list |}.

(** The exceptions of the computed translator. *)
Definition computedExceptions : list Exception :=
  [Error "Computed setter doesn't seem to have a parameter.";
   Error "Found an illegal computed setter without a getter.";
   InvalidOperationError "getBodyOrThrow"].

(** The state [classToObject] reaches when every stage completes, given
    the [name] of the class and the entries the three optional stages
    pushed. *)
Definition rewritten (printNode : Ts.Node -> string)
    (formatText : SourceFile.t -> SourceFile.t) (vue : Vue.t) (name : string)
    (props data computed : list Ts.Node) (w : World) : World :=
  {| source :=
       formatText
         (SourceFile.addExportAssignment
            {| ExportAssignment.expression :=
                 printNode
                   (componentCall
                      ([Ts.PropertyAssignment (Ts.Identifier "name")
                          (Ts.StringLiteral name true)]
                       ++ map Ts.OfObjectLiteralElement
                            (VueDecorator.properties (Vue.decorator vue))
                       ++ props ++ data ++ computed)%list);
               ExportAssignment.isExportEquals := false;
               ExportAssignment.leadingTrivia := exportTrivia vue |}
            (SourceFile.remove (Vue.declaration vue) (source (afterProps vue w))));
     console :=
       (console w ++ flat_map computedDiagnostics (Vue.computed vue))%list |}.

(** A documented class between two other statements, and a component read
    from it. *)
Definition documentedClass : ClassDeclaration.t :=
  {| ClassDeclaration.getName := Some "Counter";
     ClassDeclaration.getJsDocs :=
       [{| JSDoc.comment := Some "A counter.";
           JSDoc.getFullText := "/** A counter. */" |}];
     ClassDeclaration.getPos := 40 |}.

Definition documentedWorld : World :=
  {| source :=
       {| SourceFile.imports :=
            [{| ImportDeclaration.moduleSpecifier := "vue";
                ImportDeclaration.namedImports := ["Vue"] |}];
          SourceFile.statements :=
            [SourceFile.Text "const step = 1";
             SourceFile.Class documentedClass;
             SourceFile.Text "export const version = 2"] |};
     console := ["starting"] |}.

Definition documentedComponent : Vue.t :=
  {| Vue.declaration := documentedClass;
     Vue.decorator :=
       {| VueDecorator.properties :=
            [{| ObjectLiteralElementLike.getText := "components: { Button }" |}] |};
     Vue.props := [labelProp; arrayProp];
     Vue.data := [countField];
     Vue.computed := mixedComputed |}.

(** * Properties *)

(** ** Strings *)

Example split_two_lines :
  JsString.split JsString.nl ("ab" ++ JsString.LF ++ "c") = ["ab"; "c"].
Proof. reflexivity. Qed.

Example split_trailing :
  JsString.split JsString.nl ("ab" ++ JsString.LF) = ["ab"; ""].
Proof. reflexivity. Qed.

Example endsWith_brackets : JsString.endsWith "string[]" "[]" = true.
Proof. reflexivity. Qed.

Example endsWith_short : JsString.endsWith "]" "[]" = false.
Proof. reflexivity. Qed.

Section Split.

Variable sep : ascii.

Lemma split_not_nil (s : string) : JsString.split sep s <> [].
Proof.
  destruct s as [|c rest]; simpl; [discriminate|].
  destruct (Ascii.eqb c sep); [discriminate|].
  destruct (JsString.split sep rest); discriminate.
Qed.

(** Splitting around one more separator splits both sides. *)
Lemma split_app (a b : string) :
  JsString.split sep (a ++ String sep b)
  = (JsString.split sep a ++ JsString.split sep b)%list.
Proof.
  induction a as [|c a IH]; simpl.
  - now rewrite Ascii.eqb_refl.
  - destruct (Ascii.eqb c sep).
    + now rewrite IH.
    + rewrite IH.
      destruct (JsString.split sep a) as [|piece pieces] eqn:E.
      * now apply split_not_nil in E.
      * reflexivity.
Qed.

Lemma split_without_sep (s : string) :
  JsString.occurs sep s = false -> JsString.split sep s = [s].
Proof.
  induction s as [|c s IH]; simpl; [reflexivity|].
  intros H. apply orb_false_iff in H as [Hc Hs].
  rewrite Hc, (IH Hs). reflexivity.
Qed.

(** No piece of a split contains the separator. *)
Lemma split_pieces (s : string) :
  Forall (fun piece => JsString.occurs sep piece = false) (JsString.split sep s).
Proof.
  induction s as [|c s IH]; simpl.
  - constructor; [reflexivity | constructor].
  - destruct (Ascii.eqb c sep) eqn:Ec.
    + constructor; [reflexivity | exact IH].
    + destruct (JsString.split sep s) as [|piece pieces].
      * constructor; [simpl; now rewrite Ec | constructor].
      * inversion IH; subst. constructor; [simpl; now rewrite Ec | assumption].
Qed.

(** Joining separator-free pieces and splitting again gives the pieces. *)
Lemma split_join (pieces : list string) :
  pieces <> [] ->
  Forall (fun piece => JsString.occurs sep piece = false) pieces ->
  JsString.split sep (JsString.join (String sep EmptyString) pieces) = pieces.
Proof.
  induction pieces as [|piece rest IH]; [congruence|].
  intros _ H. inversion H as [|? ? Hpiece Hrest]; subst.
  destruct rest as [|next rest].
  - simpl. now apply split_without_sep.
  - change (JsString.join (String sep EmptyString) (piece :: next :: rest))
      with (piece ++ String sep (JsString.join (String sep EmptyString) (next :: rest))).
    rewrite split_app, (split_without_sep _ Hpiece), IH by (assumption || discriminate).
    reflexivity.
Qed.

End Split.

Lemma truthy_iff (s : string) : JsString.truthy s = true <-> s <> "".
Proof. destruct s; simpl; split; congruence. Qed.

(** ** Documentation *)

Lemma getSyntheticLeadingComments_add node kind text trailing :
  Ts.getSyntheticLeadingComments
    (Ts.addSyntheticLeadingComment node kind text trailing)
  = (Ts.getSyntheticLeadingComments node
     ++ [Ts.Build_SynthesizedComment kind text trailing])%list.
Proof. destruct node; reflexivity. Qed.

(** The lines of the comment text [createDocumentation] builds. *)
Lemma documentation_text_lines (comment : string) :
  JsString.split JsString.nl
    ("*" ++ JsString.LF ++
     JsString.join JsString.LF
       (map (fun line => " * " ++ line) (JsString.split JsString.nl comment))
     ++ JsString.LF ++ " ")
  = ("*" :: map (fun line => (" * " ++ line)%string)
                 (JsString.split JsString.nl comment)
     ++ [" "])%list.
Proof.
  change ("*" ++ JsString.LF ++ ?x) with ("*" ++ String JsString.nl x).
  rewrite split_app. simpl (JsString.split JsString.nl "*").
  change (JsString.LF ++ " ") with (String JsString.nl " ").
  rewrite split_app. unfold JsString.LF.
  rewrite split_join.
  - reflexivity.
  - intros E. apply map_eq_nil in E. now apply split_not_nil in E.
  - apply Forall_map.
    eapply Forall_impl; [|apply split_pieces].
    intros piece H. simpl. exact H.
Qed.

(** C8. When the first documentation block has comment text,
    [createDocumentation] returns the target with one more synthetic leading
    comment, a multi-line comment whose lines are an opening ["*"], then one
    line [" * " ++ line] per line of the original comment, in order, then the
    closing [" "].  With no documentation block, or a first block without
    comment text ([undefined] or the empty string), it returns the target
    itself. *)
Theorem createDocumentation_line_by_line (target : Ts.Node) (docs : list JSDoc.t) :
  (forall doc rest comment,
      docs = doc :: rest -> JSDoc.comment doc = Some comment -> comment <> "" ->
      exists text,
        createDocumentation target docs
        = Ts.addSyntheticLeadingComment target Ts.MultiLineCommentTrivia text true
        /\ Ts.getSyntheticLeadingComments (createDocumentation target docs)
           = (Ts.getSyntheticLeadingComments target
              ++ [Ts.Build_SynthesizedComment Ts.MultiLineCommentTrivia text true])%list
        /\ JsString.split JsString.nl text
           = ("*" :: map (fun line => (" * " ++ line)%string)
                         (JsString.split JsString.nl comment)
              ++ [" "])%list)
  /\ (docs = [] -> createDocumentation target docs = target)
  /\ (forall doc rest,
         docs = doc :: rest ->
         JSDoc.comment doc = None \/ JSDoc.comment doc = Some "" ->
         createDocumentation target docs = target).
Proof.
  split; [|split].
  - intros doc rest comment -> Hc Hne.
    apply truthy_iff in Hne.
    eexists. unfold createDocumentation. rewrite Hc, Hne.
    split; [reflexivity|]. split.
    + apply getSyntheticLeadingComments_add.
    + apply documentation_text_lines.
  - intros ->. reflexivity.
  - intros doc rest -> [H|H]; unfold createDocumentation; rewrite H; reflexivity.
Qed.

Lemma createDocumentation_line_by_line_witness :
  (exists text,
      createDocumentation (Ts.Identifier "label") [sampleDoc]
      = Ts.addSyntheticLeadingComment (Ts.Identifier "label")
          Ts.MultiLineCommentTrivia text true
      /\ Ts.getSyntheticLeadingComments
           (createDocumentation (Ts.Identifier "label") [sampleDoc])
         = [Ts.Build_SynthesizedComment Ts.MultiLineCommentTrivia text true]
      /\ JsString.split JsString.nl text
         = ["*"; " * The label."; " * Shown above the counter."; " "])
  /\ createDocumentation (Ts.Identifier "label") [emptyDoc] = Ts.Identifier "label".
Proof.
  split.
  - apply (proj1 (createDocumentation_line_by_line (Ts.Identifier "label") [sampleDoc])
             sampleDoc [] ("The label." ++ JsString.LF ++ "Shown above the counter."));
      [reflexivity | reflexivity | discriminate].
  - apply (proj2 (proj2 (createDocumentation_line_by_line
                           (Ts.Identifier "label") [emptyDoc])) emptyDoc []);
      [reflexivity | left; reflexivity].
Defined.

(** ** Imports *)

Section Ensure.

Variables (moduleName name : string).

Let namesOf (imports : list ImportDeclaration.t) : list string :=
  flat_map ImportDeclaration.namedImports
    (filter (Imports.isModule moduleName) imports).

Lemma imported_In (imports : list ImportDeclaration.t) :
  Imports.imported moduleName name imports = true <-> In name (namesOf imports).
Proof.
  unfold Imports.imported, namesOf. rewrite existsb_exists, in_flat_map.
  split.
  - intros (decl & Hin & H). apply andb_true_iff in H as [Hm Hn].
    exists decl. split; [apply filter_In; auto|].
    unfold Imports.hasName in Hn. apply existsb_exists in Hn as (n & Hn & E).
    apply String.eqb_eq in E. now subst.
  - intros (decl & Hin & Hn). apply filter_In in Hin as [Hin Hm].
    exists decl. split; [assumption|]. rewrite Hm. simpl.
    unfold Imports.hasName. apply existsb_exists. exists name.
    split; [assumption | apply String.eqb_refl].
Qed.

Lemma addToFirst_Some (imports imports' : list ImportDeclaration.t) :
  Imports.addToFirst moduleName name imports = Some imports' ->
  count_occ string_dec (namesOf imports') name
  = S (count_occ string_dec (namesOf imports) name).
Proof.
  revert imports'. induction imports as [|decl rest IH]; intros imports'; simpl.
  - discriminate.
  - destruct (Imports.isModule moduleName decl) eqn:Hm.
    + intros [= <-]. unfold namesOf. simpl.
      unfold Imports.isModule in *. simpl. rewrite Hm. simpl.
      rewrite !count_occ_app. simpl.
      destruct (string_dec name name); [lia | congruence].
    + destruct (Imports.addToFirst moduleName name rest) as [rest'|]; [|discriminate].
      intros [= <-]. unfold namesOf. simpl. rewrite Hm. now apply IH.
Qed.

Lemma addToFirst_None (imports : list ImportDeclaration.t) :
  Imports.addToFirst moduleName name imports = None ->
  filter (Imports.isModule moduleName) imports = [].
Proof.
  induction imports as [|decl rest IH]; simpl; [reflexivity|].
  destruct (Imports.isModule moduleName decl); [discriminate|].
  destruct (Imports.addToFirst moduleName name rest); [discriminate|].
  intros _. now apply IH.
Qed.

(** [ensure] adds the name once when it is missing and nothing otherwise. *)
Lemma occurrences_ensure (source : SourceFile.t) :
  Imports.occurrences moduleName name (Imports.ensure source moduleName [name])
  = if Imports.imported moduleName name (SourceFile.imports source)
    then Imports.occurrences moduleName name source
    else 1.
Proof.
  unfold Imports.occurrences, Imports.ensure. simpl. unfold Imports.ensureNamed.
  fold (namesOf (SourceFile.imports source)).
  destruct (Imports.imported moduleName name (SourceFile.imports source)) eqn:Hi;
    [reflexivity|].
  assert (H0 : count_occ string_dec (namesOf (SourceFile.imports source)) name = 0).
  { apply count_occ_not_In. intros Hin. apply imported_In in Hin. congruence. }
  destruct (Imports.addToFirst moduleName name (SourceFile.imports source)) eqn:Ha.
  - fold (namesOf l). rewrite (addToFirst_Some _ _ Ha), H0. reflexivity.
  - apply addToFirst_None in Ha.
    rewrite filter_app, Ha. simpl.
    unfold Imports.isModule at 1. simpl. rewrite String.eqb_refl. simpl.
    destruct (string_dec name name); [reflexivity | congruence].
Qed.

Lemma imported_ensure (source : SourceFile.t) :
  Imports.imported moduleName name
    (SourceFile.imports (Imports.ensure source moduleName [name])) = true.
Proof.
  apply imported_In. fold (namesOf (SourceFile.imports (Imports.ensure source moduleName [name]))).
  apply (count_occ_In string_dec).
  change (Imports.occurrences moduleName name
            (Imports.ensure source moduleName [name]) > 0).
  rewrite occurrences_ensure.
  destruct (Imports.imported moduleName name (SourceFile.imports source)) eqn:Hi; [|lia].
  apply imported_In in Hi. apply (count_occ_In string_dec) in Hi. exact Hi.
Qed.

(** Ensuring twice is ensuring once. *)
Lemma ensure_idempotent (source : SourceFile.t) :
  Imports.ensure (Imports.ensure source moduleName [name]) moduleName [name]
  = Imports.ensure source moduleName [name].
Proof.
  pose proof (imported_ensure source) as H.
  unfold Imports.ensure in *. simpl in *.
  unfold Imports.ensureNamed at 1. rewrite H. reflexivity.
Qed.

(** A unit that imports the name at most once imports it exactly once after
    [ensure]. *)
Lemma occurrences_ensure_once (source : SourceFile.t) :
  Imports.occurrences moduleName name source <= 1 ->
  Imports.occurrences moduleName name (Imports.ensure source moduleName [name]) = 1.
Proof.
  intros Hle. rewrite occurrences_ensure.
  destruct (Imports.imported moduleName name (SourceFile.imports source)) eqn:Hi;
    [|reflexivity].
  apply imported_In in Hi. apply (count_occ_In string_dec) in Hi.
  unfold Imports.occurrences in *. fold (namesOf (SourceFile.imports source)) in *. lia.
Qed.

End Ensure.

Lemma ensure_statements (source : SourceFile.t) moduleName named :
  SourceFile.statements (Imports.ensure source moduleName named)
  = SourceFile.statements source.
Proof. reflexivity. Qed.

(** ** The monad *)

Lemma bind_Normal {A B} (m : M A) (k : A -> M B) w value w' :
  m w = (Normal value, w') -> bind m k w = k value w'.
Proof. intros H. unfold bind. now rewrite H. Qed.

Lemma bind_Throw {A B} (m : M A) (k : A -> M B) w exception w' :
  m w = (Throw exception, w') -> bind m k w = (Throw exception, w').
Proof. intros H. unfold bind. now rewrite H. Qed.

(** A loop whose body throws on one of the items, whatever the state and the
    properties pushed so far, throws. *)
Lemma forOf_throws {A B} (body : list B -> A -> M (list B)) (item : A)
    (items : list A) :
  (forall properties w, exists exception w',
      body properties item w = (Throw exception, w')) ->
  In item items ->
  forall properties w, exists exception w',
    forOf items body properties w = (Throw exception, w').
Proof.
  intros Hbody. induction items as [|first rest IH]; [contradiction|].
  intros Hin properties w. simpl.
  destruct (body properties first w) as [[properties'|exception] w1] eqn:E.
  - rewrite (bind_Normal _ _ _ _ _ E).
    destruct Hin as [->|Hin]; [|now apply IH].
    destruct (Hbody properties w) as (e & w' & H). congruence.
  - rewrite (bind_Throw _ _ _ _ _ E). eauto.
Qed.

Lemma mapM_throws {A B} (f : A -> M B) (item : A) (items : list A) :
  (forall w, exists exception w', f item w = (Throw exception, w')) ->
  In item items ->
  forall w, exists exception w', mapM f items w = (Throw exception, w').
Proof.
  intros Hf. induction items as [|first rest IH]; [contradiction|].
  intros Hin w. simpl.
  destruct (f first w) as [[value|exception] w1] eqn:E.
  - rewrite (bind_Normal _ _ _ _ _ E).
    destruct Hin as [->|Hin].
    + destruct (Hf w) as (e & w' & H). congruence.
    + destruct (IH Hin w1) as (e & w' & H).
      rewrite (bind_Throw _ _ _ _ _ H). eauto.
  - rewrite (bind_Throw _ _ _ _ _ E). eauto.
Qed.

(** ** Props *)

Lemma classPropType_primitive (prop : VueProp.t) (w : World) :
  ~ nonPrimitive prop ->
  classPropTypeToObjectPropType prop w
  = (Normal
       (typeEntry
          match TsType.intrinsic
                  (PropertyDeclaration.getType (VueProp.declaration prop)) with
          | TsType.StringType => "String"
          | TsType.NumberType => "Number"
          | _ => "Boolean"
          end), w).
Proof.
  unfold nonPrimitive, classPropTypeToObjectPropType,
    TsType.isString, TsType.isNumber, TsType.isBoolean.
  destruct (TsType.intrinsic _); intros H; try reflexivity. congruence.
Qed.

Lemma classPropType_annotated (prop : VueProp.t) (annotation : TypeNode.t)
    (w : World) :
  nonPrimitive prop ->
  PropertyDeclaration.getTypeNode (VueProp.declaration prop) = Some annotation ->
  classPropTypeToObjectPropType prop w
  = (Normal
       (typeEntry
          ((if Nat.ltb 0 (List.length
                            (TsType.getCallSignatures
                               (PropertyDeclaration.getType (VueProp.declaration prop))))
            then "Function"
            else if JsString.startsWith (TypeNode.getText annotation) "Array<"
                    || JsString.endsWith (TypeNode.getText annotation) "[]"
                 then "Array"
                 else "Object")
           ++ " as PropType<" ++ TypeNode.getText annotation ++ ">")),
     withPropType w).
Proof.
  unfold nonPrimitive, classPropTypeToObjectPropType,
    TsType.isString, TsType.isNumber, TsType.isBoolean.
  intros -> Hnode. unfold bind, imports_ensure, modifySource. rewrite Hnode.
  reflexivity.
Qed.

Lemma classPropType_unannotated (prop : VueProp.t) (w : World) :
  nonPrimitive prop ->
  PropertyDeclaration.getTypeNode (VueProp.declaration prop) = None ->
  classPropTypeToObjectPropType prop w
  = (Throw (InvalidOperationError "getTypeNodeOrThrow"), withPropType w).
Proof.
  unfold nonPrimitive, classPropTypeToObjectPropType,
    TsType.isString, TsType.isNumber, TsType.isBoolean.
  intros -> Hnode. unfold bind, imports_ensure, modifySource. rewrite Hnode.
  reflexivity.
Qed.

Lemma nonPrimitive_dec (prop : VueProp.t) : {nonPrimitive prop} + {~ nonPrimitive prop}.
Proof.
  unfold nonPrimitive.
  destruct (TsType.intrinsic _); (now left) || (right; discriminate).
Qed.

Lemma withPropType_idempotent (w : World) : withPropType (withPropType w) = withPropType w.
Proof.
  unfold withPropType. simpl. now rewrite ensure_idempotent.
Qed.

(** The state one prop leaves behind. *)
Lemma classPropToObjectProp_state (prop : VueProp.t) (w : World) :
  snd (classPropToObjectProp prop w)
  = if nonPrimitive_dec prop then withPropType w else w.
Proof.
  unfold classPropToObjectProp.
  destruct (nonPrimitive_dec prop) as [Hn|Hn].
  - destruct (PropertyDeclaration.getTypeNode (VueProp.declaration prop)) as [annotation|] eqn:E.
    + rewrite (bind_Normal _ _ _ _ _ (classPropType_annotated _ _ w Hn E)). reflexivity.
    + rewrite (bind_Throw _ _ _ _ _ (classPropType_unannotated _ w Hn E)). reflexivity.
  - rewrite (bind_Normal _ _ _ _ _ (classPropType_primitive _ w Hn)). reflexivity.
Qed.

(** A prop can only throw after the import was ensured. *)
Lemma classPropToObjectProp_throws (prop : VueProp.t) (w : World) exception w' :
  classPropToObjectProp prop w = (Throw exception, w') -> nonPrimitive prop.
Proof.
  intros H. destruct (nonPrimitive_dec prop) as [Hn|Hn]; [assumption|].
  unfold classPropToObjectProp in H.
  rewrite (bind_Normal _ _ _ _ _ (classPropType_primitive _ w Hn)) in H.
  discriminate.
Qed.

(** The state a list of props leaves behind, thrown or not: the import is
    ensured as soon as one prop is not primitive. *)
Lemma mapM_props_state (props : list VueProp.t) (w : World) :
  snd (mapM classPropToObjectProp props w) = w
  \/ snd (mapM classPropToObjectProp props w) = withPropType w.
Proof.
  revert w. induction props as [|prop rest IH]; intros w; simpl; [now left|].
  pose proof (classPropToObjectProp_state prop w) as Hs.
  destruct (classPropToObjectProp prop w) as [[node|exception] w1] eqn:E; simpl in Hs.
  - rewrite (bind_Normal _ _ _ _ _ E).
    assert (Hrest : snd (mapM classPropToObjectProp rest w1) = w1
                    \/ snd (mapM classPropToObjectProp rest w1) = withPropType w1)
      by apply IH.
    destruct (mapM classPropToObjectProp rest w1) as [[nodes|exception] w2] eqn:E2;
      simpl in *;
      [rewrite (bind_Normal _ _ _ _ _ E2) | rewrite (bind_Throw _ _ _ _ _ E2)];
      simpl; subst w1;
      destruct (nonPrimitive_dec prop); destruct Hrest as [->| ->];
      rewrite ?withPropType_idempotent; auto.
  - rewrite (bind_Throw _ _ _ _ _ E). simpl. subst w1.
    destruct (nonPrimitive_dec prop); auto.
Qed.

Lemma mapM_props_ensured (props : list VueProp.t) (prop : VueProp.t) (w : World) :
  In prop props -> nonPrimitive prop ->
  snd (mapM classPropToObjectProp props w) = withPropType w.
Proof.
  revert w. induction props as [|first rest IH]; intros w Hin Hn; [contradiction|].
  simpl.
  pose proof (classPropToObjectProp_state first w) as Hs.
  destruct (classPropToObjectProp first w) as [[node|exception] w1] eqn:E; simpl in Hs.
  - rewrite (bind_Normal _ _ _ _ _ E).
    assert (Hw2 : snd (mapM classPropToObjectProp rest w1) = withPropType w).
    { destruct Hin as [->|Hin].
      - destruct (nonPrimitive_dec prop); [|contradiction]. subst w1.
        destruct (mapM_props_state rest (withPropType w)) as [->| ->];
          now rewrite ?withPropType_idempotent.
      - rewrite (IH w1 Hin Hn). subst w1.
        destruct (nonPrimitive_dec first); now rewrite ?withPropType_idempotent. }
    destruct (mapM classPropToObjectProp rest w1) as [[nodes|exception] w2] eqn:E2;
      simpl in *;
      [rewrite (bind_Normal _ _ _ _ _ E2) | rewrite (bind_Throw _ _ _ _ _ E2)];
      exact Hw2.
  - rewrite (bind_Throw _ _ _ _ _ E). simpl.
    apply classPropToObjectProp_throws in E.
    destruct (nonPrimitive_dec first); [assumption | contradiction].
Qed.

Lemma classProps_state (vue : Vue.t) (w : World) :
  snd (classPropsToObjectProps vue w) = snd (mapM classPropToObjectProp (Vue.props vue) w).
Proof.
  unfold classPropsToObjectProps.
  destruct (mapM classPropToObjectProp (Vue.props vue) w) as [[nodes|exception] w1] eqn:E.
  - now rewrite (bind_Normal _ _ _ _ _ E).
  - now rewrite (bind_Throw _ _ _ _ _ E).
Qed.

Lemma base_cases (signatures : list Signature.t) (arrayText : bool) :
  let base :=
    if Nat.ltb 0 (List.length signatures) then "Function"
    else if arrayText then "Array" else "Object" in
  (base = "Function" <-> signatures <> [])
  /\ (base = "Array" <-> signatures = [] /\ arrayText = true)
  /\ (base = "Object" <-> signatures = [] /\ arrayText = false).
Proof.
  destruct signatures, arrayText; simpl;
    repeat split; intros; try discriminate; try congruence;
    match goal with H : _ /\ _ |- _ => destruct H; discriminate end.
Qed.

(** C1, as amended.  The [type] entry of a [string], [number] or [boolean]
    prop is the plain identifier [String], [Number] or [Boolean], and the
    unit is not touched.  For any other prop that carries a type annotation
    the entry is [Base as PropType<T>] with the annotation's text [T], after
    [PropType] has been ensured as a named import from ['vue']; the base is
    [Function] iff the type has a call signature, [Array] iff it has none and
    the text starts with [Array<] or ends with [[]], [Object] iff it has none
    and the text does neither.  In a unit that imported [PropType] at most
    once, it is imported exactly once afterwards, after one such prop and
    after the props translator ran over any list holding such a prop. *)
Theorem classPropTypeToObjectPropType_entry (prop : VueProp.t) (w : World) :
  let type := PropertyDeclaration.getType (VueProp.declaration prop) in
  (TsType.isString type = true ->
   classPropTypeToObjectPropType prop w = (Normal (typeEntry "String"), w))
  /\ (TsType.isNumber type = true ->
      classPropTypeToObjectPropType prop w = (Normal (typeEntry "Number"), w))
  /\ (TsType.isBoolean type = true ->
      classPropTypeToObjectPropType prop w = (Normal (typeEntry "Boolean"), w))
  /\ (forall annotation,
         nonPrimitive prop ->
         PropertyDeclaration.getTypeNode (VueProp.declaration prop) = Some annotation ->
         let T := TypeNode.getText annotation in
         exists base,
           classPropTypeToObjectPropType prop w
           = (Normal (typeEntry (base ++ " as PropType<" ++ T ++ ">")),
              withPropType w)
           /\ (base = "Function" <-> TsType.getCallSignatures type <> [])
           /\ (base = "Array" <->
               TsType.getCallSignatures type = []
               /\ (JsString.startsWith T "Array<" = true
                   \/ JsString.endsWith T "[]" = true))
           /\ (base = "Object" <->
               TsType.getCallSignatures type = []
               /\ JsString.startsWith T "Array<" = false
               /\ JsString.endsWith T "[]" = false)
           /\ (Imports.occurrences "vue" "PropType" (source w) <= 1 ->
               Imports.occurrences "vue" "PropType" (source (withPropType w)) = 1))
  /\ (forall vue,
         In prop (Vue.props vue) ->
         nonPrimitive prop ->
         Imports.occurrences "vue" "PropType" (source w) <= 1 ->
         Imports.occurrences "vue" "PropType"
           (source (snd (classPropsToObjectProps vue w))) = 1).
Proof.
  cbv zeta. unfold TsType.isString, TsType.isNumber, TsType.isBoolean.
  split; [|split; [|split; [|split]]].
  - intros H. rewrite classPropType_primitive.
    + destruct (TsType.intrinsic _); (reflexivity || discriminate).
    + unfold nonPrimitive. intros E. rewrite E in H. discriminate.
  - intros H. rewrite classPropType_primitive.
    + destruct (TsType.intrinsic _); (reflexivity || discriminate).
    + unfold nonPrimitive. intros E. rewrite E in H. discriminate.
  - intros H. rewrite classPropType_primitive.
    + destruct (TsType.intrinsic _); (reflexivity || discriminate).
    + unfold nonPrimitive. intros E. rewrite E in H. discriminate.
  - intros annotation Hn Hnode. eexists. split.
    + apply classPropType_annotated; assumption.
    + pose proof (base_cases
                    (TsType.getCallSignatures
                       (PropertyDeclaration.getType (VueProp.declaration prop)))
                    (JsString.startsWith (TypeNode.getText annotation) "Array<"
                     || JsString.endsWith (TypeNode.getText annotation) "[]"))
        as (HF & HA & HO).
      cbv zeta in HF, HA, HO.
      rewrite orb_true_iff in HA. rewrite orb_false_iff in HO.
      split; [exact HF | split; [exact HA | split; [exact HO |]]].
      intros Hle. apply (occurrences_ensure_once "vue" "PropType"). exact Hle.
  - intros vue Hin Hn Hle.
    rewrite classProps_state, (mapM_props_ensured _ _ w Hin Hn).
    apply (occurrences_ensure_once "vue" "PropType"). exact Hle.
Qed.

Lemma classPropTypeToObjectPropType_entry_witness :
  classPropTypeToObjectPropType labelProp sampleWorld
  = (Normal (typeEntry "String"), sampleWorld)
  /\ (exists base,
         classPropTypeToObjectPropType arrayProp sampleWorld
         = (Normal (typeEntry (base ++ " as PropType<" ++ "string[]" ++ ">")),
            withPropType sampleWorld)
         /\ (base = "Function" <-> @nil Signature.t <> [])
         /\ (base = "Array" <->
             @nil Signature.t = []
             /\ (JsString.startsWith "string[]" "Array<" = true
                 \/ JsString.endsWith "string[]" "[]" = true))
         /\ (base = "Object" <->
             @nil Signature.t = []
             /\ JsString.startsWith "string[]" "Array<" = false
             /\ JsString.endsWith "string[]" "[]" = false)
         /\ (Imports.occurrences "vue" "PropType" (source sampleWorld) <= 1 ->
             Imports.occurrences "vue" "PropType"
               (source (withPropType sampleWorld)) = 1))
  /\ Imports.occurrences "vue" "PropType"
       (source (snd (classPropsToObjectProps
                       (componentOf [interfaceProp; labelProp; arrayProp] [] [])
                       sampleWorld))) = 1.
Proof.
  split; [|split].
  - apply (proj1 (classPropTypeToObjectPropType_entry labelProp sampleWorld)).
    reflexivity.
  - apply (proj1 (proj2 (proj2 (proj2
             (classPropTypeToObjectPropType_entry arrayProp sampleWorld))))
             (typeNode "string[]")); reflexivity.
  - apply (proj2 (proj2 (proj2 (proj2
             (classPropTypeToObjectPropType_entry arrayProp sampleWorld))))
             (componentOf [interfaceProp; labelProp; arrayProp] [] []));
      [simpl; auto | reflexivity | vm_compute; lia].
Defined.

Example interface_prop_type :
  classPropTypeToObjectPropType interfaceProp sampleWorld
  = (Normal (typeEntry "Object as PropType<MyInterface>"),
     {| source :=
          {| SourceFile.imports :=
               [{| ImportDeclaration.moduleSpecifier := "vue";
                   ImportDeclaration.namedImports := ["PropType"] |}];
             SourceFile.statements := [SourceFile.Class sampleClass] |};
        console := [] |}).
Proof. reflexivity. Qed.

Example callable_array_prop_type :
  fst (classPropTypeToObjectPropType callableArrayProp sampleWorld)
  = Normal (typeEntry "Function as PropType<Array<number> & (() => void)>").
Proof. reflexivity. Qed.

(** C1, as stated, fails on [load: () => string[]]: the text of the type
    ends with [[]], and the base is [Function], not [Array]. *)
Lemma classPropType_array_text_function_base :
  JsString.endsWith "() => string[]" "[]" = true
  /\ classPropTypeToObjectPropType loaderProp sampleWorld
     = (Normal (typeEntry "Function as PropType<() => string[]>"),
        withPropType sampleWorld)
  /\ ~ (fst (classPropTypeToObjectPropType loaderProp sampleWorld)
        = Normal (typeEntry "Array as PropType<() => string[]>")
        <-> JsString.startsWith "() => string[]" "Array<" = true
            \/ JsString.endsWith "() => string[]" "[]" = true).
Proof.
  split; [reflexivity | split; [reflexivity|]].
  intros [_ H]. specialize (H (or_intror eq_refl)). discriminate H.
Qed.

(** C2. The options of a prop are exactly one entry: a [default] entry
    holding the text of the default's initializer when the prop has a
    default, whatever its [required]; else the prop's own [required]
    assignment, unchanged; else a synthesized [required: false].  The prop
    object, when the prop translates, holds the [type] entry followed by that
    one entry and nothing else. *)
Theorem classPropOptionsToObjectPropOptions_exactly_one (prop : VueProp.t) :
  (forall default,
      VueProp.default prop = Some default ->
      classPropOptionsToObjectPropOptions prop
      = [Ts.PropertyAssignment
           (Ts.Identifier "default")
           (Ts.Identifier
              (Expression.getText (PropertyAssignment.getInitializer default)))])
  /\ (forall required,
         VueProp.default prop = None ->
         VueProp.required prop = Some required ->
         classPropOptionsToObjectPropOptions prop = [Ts.OfPropertyAssignment required])
  /\ (VueProp.default prop = None ->
      VueProp.required prop = None ->
      classPropOptionsToObjectPropOptions prop
      = [Ts.PropertyAssignment (Ts.Identifier "required") Ts.False_])
  /\ List.length (classPropOptionsToObjectPropOptions prop) = 1
  /\ (forall w node w',
         classPropToObjectProp prop w = (Normal node, w') ->
         exists type option,
           classPropTypeToObjectPropType prop w = (Normal type, w')
           /\ classPropOptionsToObjectPropOptions prop = [option]
           /\ node
              = createDocumentation
                  (Ts.PropertyAssignment
                     (Ts.Identifier
                        (PropertyDeclaration.getName (VueProp.declaration prop)))
                     (Ts.ObjectLiteralExpression [type; option] true))
                  (PropertyDeclaration.getJsDocs (VueProp.declaration prop))).
Proof.
  unfold classPropOptionsToObjectPropOptions.
  split; [|split; [|split; [|split]]].
  - intros default ->. reflexivity.
  - intros required -> ->. reflexivity.
  - intros -> ->. reflexivity.
  - destruct (VueProp.default prop); [reflexivity|].
    destruct (VueProp.required prop); reflexivity.
  - intros w node w' H. unfold classPropToObjectProp in H.
    destruct (classPropTypeToObjectPropType prop w) as [[type|exception] w1] eqn:E.
    + rewrite (bind_Normal _ _ _ _ _ E) in H. unfold ret in H.
      injection H as <- <-. exists type.
      unfold classPropOptionsToObjectPropOptions.
      destruct (VueProp.default prop); [|destruct (VueProp.required prop)];
        eexists; repeat split; reflexivity.
    + rewrite (bind_Throw _ _ _ _ _ E) in H. discriminate.
Qed.

Lemma classPropOptionsToObjectPropOptions_exactly_one_witness :
  classPropOptionsToObjectPropOptions labelProp
  = [Ts.PropertyAssignment (Ts.Identifier "default") (Ts.Identifier "'x'")]
  /\ classPropOptionsToObjectPropOptions countProp
     = [Ts.OfPropertyAssignment
          {| PropertyAssignment.getName := "required";
             PropertyAssignment.getInitializer := {| Expression.getText := "true" |} |}]
  /\ classPropOptionsToObjectPropOptions interfaceProp
     = [Ts.PropertyAssignment (Ts.Identifier "required") Ts.False_].
Proof.
  split; [|split].
  - exact (proj1 (classPropOptionsToObjectPropOptions_exactly_one labelProp)
             _ eq_refl).
  - exact (proj1 (proj2 (classPropOptionsToObjectPropOptions_exactly_one countProp))
             _ eq_refl eq_refl).
  - apply (proj1 (proj2 (proj2
             (classPropOptionsToObjectPropOptions_exactly_one interfaceProp))));
      reflexivity.
Defined.

Example label_prop_object :
  fst (classPropToObjectProp labelProp sampleWorld)
  = Normal
      (Ts.PropertyAssignment
         (Ts.Identifier "label")
         (Ts.ObjectLiteralExpression
            [typeEntry "String";
             Ts.PropertyAssignment (Ts.Identifier "default") (Ts.Identifier "'x'")]
            true)).
Proof. reflexivity. Qed.

Lemma classPropToObjectProp_exception (prop : VueProp.t) (w : World) exception w' :
  classPropToObjectProp prop w = (Throw exception, w') ->
  exception = InvalidOperationError "getTypeNodeOrThrow".
Proof.
  intros H. pose proof (classPropToObjectProp_throws _ _ _ _ H) as Hn.
  unfold classPropToObjectProp in H.
  destruct (PropertyDeclaration.getTypeNode (VueProp.declaration prop)) as [annotation|] eqn:E.
  - rewrite (bind_Normal _ _ _ _ _ (classPropType_annotated _ _ w Hn E)) in H.
    discriminate.
  - rewrite (bind_Throw _ _ _ _ _ (classPropType_unannotated _ w Hn E)) in H.
    congruence.
Qed.

Lemma mapM_props_exception (props : list VueProp.t) (w : World) exception w' :
  mapM classPropToObjectProp props w = (Throw exception, w') ->
  exception = InvalidOperationError "getTypeNodeOrThrow".
Proof.
  revert w. induction props as [|prop rest IH]; intros w; simpl; [discriminate|].
  destruct (classPropToObjectProp prop w) as [[node|e] w1] eqn:E.
  - rewrite (bind_Normal _ _ _ _ _ E).
    destruct (mapM classPropToObjectProp rest w1) as [[nodes|e] w2] eqn:E2.
    + rewrite (bind_Normal _ _ _ _ _ E2). discriminate.
    + rewrite (bind_Throw _ _ _ _ _ E2). intros [= <- <-]. eapply IH, E2.
  - rewrite (bind_Throw _ _ _ _ _ E). intros [= <- <-].
    eapply classPropToObjectProp_exception, E.
Qed.

(** C10. A prop whose type is none of [string], [number], [boolean] and
    whose declaration has no type annotation makes [getTypeNodeOrThrow]
    throw, after the import was ensured: the prop is never classified, and
    the props translator throws on every list of props that holds it. *)
Theorem classPropTypeToObjectPropType_unannotated_throws
    (vue : Vue.t) (prop : VueProp.t) (w : World) :
  nonPrimitive prop ->
  PropertyDeclaration.getTypeNode (VueProp.declaration prop) = None ->
  classPropTypeToObjectPropType prop w
  = (Throw (InvalidOperationError "getTypeNodeOrThrow"), withPropType w)
  /\ (In prop (Vue.props vue) ->
      classPropsToObjectProps vue w
      = (Throw (InvalidOperationError "getTypeNodeOrThrow"), withPropType w)).
Proof.
  intros Hn Hnode. split; [now apply classPropType_unannotated|].
  intros Hin.
  assert (Hthrows : forall w0, exists exception w',
             classPropToObjectProp prop w0 = (Throw exception, w')).
  { intros w0. unfold classPropToObjectProp.
    rewrite (bind_Throw _ _ _ _ _ (classPropType_unannotated _ w0 Hn Hnode)).
    eauto. }
  destruct (mapM_throws _ _ _ Hthrows Hin w) as (exception & w' & H).
  pose proof (mapM_props_exception _ _ _ _ H) as ->.
  pose proof (mapM_props_ensured _ _ w Hin Hn) as Hs. rewrite H in Hs. simpl in Hs.
  subst w'. unfold classPropsToObjectProps.
  now rewrite (bind_Throw _ _ _ _ _ H).
Qed.

Lemma classPropTypeToObjectPropType_unannotated_throws_witness :
  classPropTypeToObjectPropType unannotatedProp sampleWorld
  = (Throw (InvalidOperationError "getTypeNodeOrThrow"), withPropType sampleWorld)
  /\ classPropsToObjectProps (componentOf [labelProp; unannotatedProp] [] []) sampleWorld
     = (Throw (InvalidOperationError "getTypeNodeOrThrow"), withPropType sampleWorld).
Proof.
  destruct (classPropTypeToObjectPropType_unannotated_throws
              (componentOf [labelProp; unannotatedProp] [] [])
              unannotatedProp sampleWorld eq_refl eq_refl) as [H1 H2].
  split; [exact H1 | apply H2; simpl; auto].
Defined.

(** ** Data *)

Lemma data_loop (data : list PropertyDeclaration.t) :
  forall (values : list Expression.t) (properties : list Ts.Node) (w : World),
    map PropertyDeclaration.getInitializer data = map Some values ->
    forOf data classDataToObjectData_body properties w
    = (Normal (properties
               ++ map (fun '(declaration, value) => dataEntry declaration value)
                      (combine data values))%list, w).
Proof.
  induction data as [|declaration rest IH]; intros values properties w H.
  - simpl. now rewrite app_nil_r.
  - destruct values as [|value values]; [discriminate|].
    simpl in H. injection H as Hvalue Hrest.
    simpl. unfold classDataToObjectData_body at 1. rewrite Hvalue.
    unfold bind at 1. simpl.
    rewrite (IH values _ w Hrest), <- app_assoc. simpl. unfold dataEntry.
    destruct (PropertyDeclaration.getTypeNode declaration); reflexivity.
Qed.

Lemma data_loop_throws (data : list PropertyDeclaration.t)
    (declaration : PropertyDeclaration.t) :
  In declaration data ->
  PropertyDeclaration.getInitializer declaration = None ->
  forall (properties : list Ts.Node) (w : World),
    forOf data classDataToObjectData_body properties w
    = (Throw (InvalidOperationError "getInitializerOrThrow"), w).
Proof.
  intros Hin Hnone. induction data as [|first rest IH]; [contradiction|].
  intros properties w. simpl. unfold classDataToObjectData_body at 1.
  destruct (PropertyDeclaration.getInitializer first) as [value|] eqn:E.
  - unfold bind at 1. simpl. apply IH.
    destruct Hin as [->|Hin]; [congruence | assumption].
  - reflexivity.
Qed.

(** C7. When every data field has an initializer, [classDataToObjectData]
    returns the method [data] with no parameter whose body is the single
    statement [return { ... }], the object literal holding one entry per data
    field in declaration order, the entry's value being the text of the
    initializer, or [initializer as type] when the field has a type
    annotation; the state is untouched.  When some data field has no
    initializer, it throws. *)
Theorem classDataToObjectData_method (vue : Vue.t) (w : World) :
  (forall values,
      map PropertyDeclaration.getInitializer (Vue.data vue) = map Some values ->
      classDataToObjectData vue w
      = (Normal
           (dataMethod
              (map (fun '(declaration, value) => dataEntry declaration value)
                   (combine (Vue.data vue) values))),
         w))
  /\ (forall declaration,
         In declaration (Vue.data vue) ->
         PropertyDeclaration.getInitializer declaration = None ->
         classDataToObjectData vue w
         = (Throw (InvalidOperationError "getInitializerOrThrow"), w)).
Proof.
  split.
  - intros values H. unfold classDataToObjectData.
    rewrite (bind_Normal _ _ _ _ _ (data_loop _ values [] w H)). reflexivity.
  - intros declaration Hin Hnone. unfold classDataToObjectData.
    now rewrite (bind_Throw _ _ _ _ _ (data_loop_throws _ _ Hin Hnone [] w)).
Qed.

Lemma classDataToObjectData_method_witness :
  classDataToObjectData (componentOf [] [countField; namesField] []) sampleWorld
  = (Normal
       (dataMethod
          [Ts.PropertyAssignment (Ts.Identifier "count") (Ts.Identifier "1");
           Ts.PropertyAssignment (Ts.Identifier "names")
             (Ts.Identifier "[] as string[]")]),
     sampleWorld)
  /\ classDataToObjectData (componentOf [] [countField; pendingField] []) sampleWorld
     = (Throw (InvalidOperationError "getInitializerOrThrow"), sampleWorld).
Proof.
  split.
  - exact (proj1 (classDataToObjectData_method
                    (componentOf [] [countField; namesField] []) sampleWorld)
             [{| Expression.getText := "1" |}; {| Expression.getText := "[]" |}]
             eq_refl).
  - apply (proj2 (classDataToObjectData_method
                    (componentOf [] [countField; pendingField] []) sampleWorld)
             pendingField); [simpl; auto | reflexivity].
Defined.

(** ** Computed *)

Lemma getter_only_entry (properties : list Ts.Node) (name : string)
    (accessors : VueComputed.t) (getter : GetAccessorDeclaration.t) (w : World) :
  VueComputed.getter accessors = Some getter ->
  VueComputed.setter accessors = None ->
  classComputedToObjectComputed_body properties (name, accessors) w
  = bind (classComputedGetterToObjectComputedGetter name getter)
         (fun property => ret (properties ++ [property])%list) w.
Proof. intros Hg Hs. simpl. now rewrite Hg, Hs. Qed.

(** C3, as stated, fails on a getter without a body, such as
    [abstract get total(): number;] with no setter: the entry does not
    succeed, [getBodyOrThrow] throws. *)
Lemma computed_getter_without_body_throws :
  classComputedToObjectComputed_body [] ("total", getterOnly abstractGetter) sampleWorld
  = (Throw (InvalidOperationError "getBodyOrThrow"), sampleWorld)
  /\ classComputedToObjectComputed
       (componentOf [] [] [("total", getterOnly abstractGetter)]) sampleWorld
     = (Throw (InvalidOperationError "getBodyOrThrow"), sampleWorld).
Proof. split; reflexivity. Qed.

(** C3, as amended.  In the computed translator, an entry with a getter and
    a setter whose setter has no parameter throws; an entry with a setter
    and no getter throws; an entry with a getter that has a body and no
    setter succeeds: it pushes one method named after the entry, whose
    return type is the getter's own return type, with nothing logged, when
    the getter has one, and otherwise the [any] keyword, with one diagnostic
    logged.  A getter without a body throws.  The translator throws on every
    mapping that holds an entry of the two throwing kinds. *)
Theorem classComputedToObjectComputed_entry (properties : list Ts.Node)
    (name : string) (accessors : VueComputed.t) (w : World) :
  (forall getter setter,
      VueComputed.getter accessors = Some getter ->
      VueComputed.setter accessors = Some setter ->
      SetAccessorDeclaration.getParameters setter = [] ->
      classComputedToObjectComputed_body properties (name, accessors) w
      = (Throw (Error "Computed setter doesn't seem to have a parameter."), w))
  /\ (forall setter,
         VueComputed.getter accessors = None ->
         VueComputed.setter accessors = Some setter ->
         classComputedToObjectComputed_body properties (name, accessors) w
         = (Throw (Error "Found an illegal computed setter without a getter."), w))
  /\ (forall getter body,
         VueComputed.getter accessors = Some getter ->
         VueComputed.setter accessors = None ->
         GetAccessorDeclaration.getBody getter = Some body ->
         (forall returnType,
             GetAccessorDeclaration.getReturnTypeNode getter = Some returnType ->
             classComputedToObjectComputed_body properties (name, accessors) w
             = (Normal (properties
                        ++ [getterMethod name (Ts.OfTypeNode returnType) body])%list,
                w))
         /\ (GetAccessorDeclaration.getReturnTypeNode getter = None ->
             classComputedToObjectComputed_body properties (name, accessors) w
             = (Normal (properties
                        ++ [getterMethod name (Ts.KeywordTypeNode Ts.AnyKeyword) body])%list,
                logged (getterDiagnostic name) w)))
  /\ (forall getter,
         VueComputed.getter accessors = Some getter ->
         VueComputed.setter accessors = None ->
         GetAccessorDeclaration.getBody getter = None ->
         exists w',
           classComputedToObjectComputed_body properties (name, accessors) w
           = (Throw (InvalidOperationError "getBodyOrThrow"), w'))
  /\ (forall vue,
         In (name, accessors) (Vue.computed vue) ->
         (VueComputed.getter accessors = None /\ VueComputed.setter accessors <> None)
         \/ (exists getter setter,
                VueComputed.getter accessors = Some getter
                /\ VueComputed.setter accessors = Some setter
                /\ SetAccessorDeclaration.getParameters setter = []) ->
         exists exception w',
           classComputedToObjectComputed vue w = (Throw exception, w')).
Proof.
  split; [|split; [|split; [|split]]].
  - intros getter setter Hg Hs Hp. simpl. rewrite Hg, Hs.
    unfold classComputedPropertyToObjectComputedProperty. rewrite Hp. reflexivity.
  - intros setter Hg Hs. simpl. rewrite Hg, Hs. reflexivity.
  - intros getter body Hg Hs Hb. split.
    + intros returnType Hr. rewrite (getter_only_entry _ _ _ _ _ Hg Hs).
      unfold classComputedGetterToObjectComputedGetter. rewrite Hr, Hb. reflexivity.
    + intros Hr. rewrite (getter_only_entry _ _ _ _ _ Hg Hs).
      unfold classComputedGetterToObjectComputedGetter. rewrite Hr, Hb. reflexivity.
  - intros getter Hg Hs Hb. rewrite (getter_only_entry _ _ _ _ _ Hg Hs).
    unfold classComputedGetterToObjectComputedGetter. rewrite Hb.
    destruct (GetAccessorDeclaration.getReturnTypeNode getter); eexists; reflexivity.
  - intros vue Hin Hbad.
    assert (Hthrows : forall properties0 w0, exists exception w',
               classComputedToObjectComputed_body properties0 (name, accessors) w0
               = (Throw exception, w')).
    { intros properties0 w0. simpl.
      destruct Hbad as [[Hg Hs] | (getter & setter & Hg & Hs & Hp)].
      + rewrite Hg.
        destruct (VueComputed.setter accessors); [|congruence].
        do 2 eexists. reflexivity.
      + rewrite Hg, Hs. unfold classComputedPropertyToObjectComputedProperty.
        rewrite Hp. do 2 eexists. reflexivity. }
    destruct (forOf_throws _ _ _ Hthrows Hin [] w) as (exception & w' & H).
    exists exception, w'. unfold classComputedToObjectComputed.
    now rewrite (bind_Throw _ _ _ _ _ H).
Qed.

Lemma classComputedToObjectComputed_entry_witness :
  classComputedToObjectComputed_body [] ("double", getterOnly doubleGetter) sampleWorld
  = (Normal [getterMethod "double" (Ts.OfTypeNode (typeNode "number"))
               (block ["return this.count * 2"])],
     sampleWorld)
  /\ classComputedToObjectComputed_body [] ("title", getterOnly titleGetter) sampleWorld
     = (Normal [getterMethod "title" (Ts.KeywordTypeNode Ts.AnyKeyword)
                  (block ["return this.label"])],
        logged (getterDiagnostic "title") sampleWorld)
  /\ classComputedToObjectComputed_body []
       ("title", getterAndSetter titleGetter bareSetter) sampleWorld
     = (Throw (Error "Computed setter doesn't seem to have a parameter."), sampleWorld)
  /\ classComputedToObjectComputed_body [] ("title", setterOnly titleSetter) sampleWorld
     = (Throw (Error "Found an illegal computed setter without a getter."), sampleWorld)
  /\ (exists exception w',
         classComputedToObjectComputed
           (componentOf [] [] [("double", getterOnly doubleGetter);
                               ("title", setterOnly titleSetter)])
           sampleWorld
         = (Throw exception, w')).
Proof.
  split; [|split; [|split; [|split]]].
  - exact (proj1 (proj1 (proj2 (proj2
             (classComputedToObjectComputed_entry
                [] "double" (getterOnly doubleGetter) sampleWorld)))
             doubleGetter _ eq_refl eq_refl eq_refl) _ eq_refl).
  - exact (proj2 (proj1 (proj2 (proj2
             (classComputedToObjectComputed_entry
                [] "title" (getterOnly titleGetter) sampleWorld)))
             titleGetter _ eq_refl eq_refl eq_refl) eq_refl).
  - exact (proj1 (classComputedToObjectComputed_entry
                    [] "title" (getterAndSetter titleGetter bareSetter) sampleWorld)
             titleGetter bareSetter eq_refl eq_refl eq_refl).
  - exact (proj1 (proj2 (classComputedToObjectComputed_entry
                           [] "title" (setterOnly titleSetter) sampleWorld))
             titleSetter eq_refl eq_refl).
  - apply (proj2 (proj2 (proj2 (proj2
             (classComputedToObjectComputed_entry
                [] "title" (setterOnly titleSetter) sampleWorld))))
             (componentOf [] [] [("double", getterOnly doubleGetter);
                                 ("title", setterOnly titleSetter)])).
    + simpl. auto.
    + left. split; [reflexivity | discriminate].
Defined.

(** C4. For a getter and a setter that both have a body, the setter having
    a first parameter, the emitted entry holds the methods [get] and [set],
    and the return type of [get] is the type annotation of the setter's
    first parameter, with nothing logged, when the parameter is annotated,
    whatever return type the getter itself declares; when the parameter is
    not annotated it is the [any] keyword and one diagnostic is logged. *)
Theorem classComputedPropertyToObjectComputedProperty_return_type
    (name : string) (getter : GetAccessorDeclaration.t)
    (setter : SetAccessorDeclaration.t) (setParameter : ParameterDeclaration.t)
    (others : list ParameterDeclaration.t) (getterBody setterBody : Block.t)
    (w : World) :
  SetAccessorDeclaration.getParameters setter = setParameter :: others ->
  GetAccessorDeclaration.getBody getter = Some getterBody ->
  SetAccessorDeclaration.getBody setter = Some setterBody ->
  (forall parameterType,
      ParameterDeclaration.getTypeNode setParameter = Some parameterType ->
      classComputedPropertyToObjectComputedProperty name getter setter w
      = (Normal (accessorPair name (Ts.OfTypeNode parameterType)
                   getterBody setParameter setterBody),
         w))
  /\ (ParameterDeclaration.getTypeNode setParameter = None ->
      classComputedPropertyToObjectComputedProperty name getter setter w
      = (Normal (accessorPair name (Ts.KeywordTypeNode Ts.AnyKeyword)
                   getterBody setParameter setterBody),
         logged (pairDiagnostic name) w)).
Proof.
  intros Hp Hg Hs. unfold classComputedPropertyToObjectComputedProperty.
  rewrite Hp, Hg, Hs. split.
  - intros parameterType ->. reflexivity.
  - intros ->. reflexivity.
Qed.

Lemma classComputedPropertyToObjectComputedProperty_return_type_witness :
  classComputedPropertyToObjectComputedProperty "title" doubleGetter titleSetter
    sampleWorld
  = (Normal
       (accessorPair "title" (Ts.OfTypeNode (typeNode "string"))
          (block ["return this.count * 2"])
          {| ParameterDeclaration.getName := "value";
             ParameterDeclaration.getTypeNode := Some (typeNode "string") |}
          (block ["this.$emit('title', value)"])),
     sampleWorld)
  /\ classComputedPropertyToObjectComputedProperty "title" titleGetter untypedSetter
       sampleWorld
     = (Normal
          (accessorPair "title" (Ts.KeywordTypeNode Ts.AnyKeyword)
             (block ["return this.label"])
             {| ParameterDeclaration.getName := "value";
                ParameterDeclaration.getTypeNode := None |}
             (block ["this.$emit('title', value)"])),
        logged (pairDiagnostic "title") sampleWorld).
Proof.
  split.
  - exact (proj1 (classComputedPropertyToObjectComputedProperty_return_type
                    "title" doubleGetter titleSetter _ _ _ _ sampleWorld
                    eq_refl eq_refl eq_refl) _ eq_refl).
  - exact (proj2 (classComputedPropertyToObjectComputedProperty_return_type
                    "title" titleGetter untypedSetter _ _ _ _ sampleWorld
                    eq_refl eq_refl eq_refl) eq_refl).
Defined.

(** ** The assembler *)

Lemma classNameToPropName_state (vue : Vue.t) (w : World) :
  snd (classNameToPropName vue w) = w.
Proof.
  unfold classNameToPropName.
  destruct (ClassDeclaration.getName (Vue.declaration vue)); reflexivity.
Qed.

Lemma forOf_invariant {A B} (P : World -> Prop)
    (body : list B -> A -> M (list B)) (items : list A) :
  (forall properties item w, P w -> P (snd (body properties item w))) ->
  forall properties w, P w -> P (snd (forOf items body properties w)).
Proof.
  intros Hbody. induction items as [|item rest IH]; intros properties w Hw.
  - exact Hw.
  - simpl. specialize (Hbody properties item w Hw).
    destruct (body properties item w) as [[properties'|exception] w1] eqn:E.
    + rewrite (bind_Normal _ _ _ _ _ E). now apply IH.
    + now rewrite (bind_Throw _ _ _ _ _ E).
Qed.

Lemma bind_ret_state {A B} (m : M A) (f : A -> B) (w : World) :
  snd (bind m (fun value => ret (f value)) w) = snd (m w).
Proof. unfold bind. destruct (m w) as [[value|exception] w1]; reflexivity. Qed.

Lemma classDataToObjectData_state (vue : Vue.t) (w : World) :
  snd (classDataToObjectData vue w) = w.
Proof.
  unfold classDataToObjectData. rewrite bind_ret_state.
  apply (forOf_invariant (fun w' => w' = w)); [|reflexivity].
  intros properties declaration w0 ->. unfold classDataToObjectData_body.
  destruct (PropertyDeclaration.getInitializer declaration); reflexivity.
Qed.

(** The computed translator only writes to the console. *)
Lemma classComputedToObjectComputed_source (vue : Vue.t) (w : World) :
  source (snd (classComputedToObjectComputed vue w)) = source w.
Proof.
  unfold classComputedToObjectComputed. rewrite bind_ret_state.
  apply (forOf_invariant (fun w' => source w' = source w)); [|reflexivity].
  intros properties [name accessors] w0 Hw0. simpl.
  destruct (VueComputed.getter accessors) as [getter|];
    destruct (VueComputed.setter accessors) as [setter|]; try exact Hw0.
  - rewrite bind_ret_state. unfold classComputedPropertyToObjectComputedProperty.
    destruct (SetAccessorDeclaration.getParameters setter) as [|setParameter others];
      [exact Hw0|].
    destruct (SetAccessorDeclaration.getBody setter); [|exact Hw0].
    destruct (ParameterDeclaration.getTypeNode setParameter);
      destruct (GetAccessorDeclaration.getBody getter); exact Hw0.
  - rewrite bind_ret_state. unfold classComputedGetterToObjectComputedGetter.
    destruct (GetAccessorDeclaration.getReturnTypeNode getter);
      destruct (GetAccessorDeclaration.getBody getter); exact Hw0.
Qed.

Lemma classProps_source (vue : Vue.t) (w : World) :
  source (snd (classPropsToObjectProps vue w)) = source w
  \/ source (snd (classPropsToObjectProps vue w))
     = Imports.ensure (source w) "vue" ["PropType"].
Proof.
  rewrite classProps_state.
  destruct (mapM_props_state (Vue.props vue) w) as [-> | ->]; auto.
Qed.

(** One optional stage of the assembler: skipped, pushed, or thrown. *)
Lemma optional_stage (condition : bool) (stage : M Ts.Node)
    (properties : list Ts.Node) (w : World) result w' :
  (if condition then
     bind stage (fun entry => ret (properties ++ [entry])%list)
   else ret properties) w = (result, w') ->
  w' = (if condition then snd (stage w) else w)
  /\ match result with
     | Normal properties' =>
         exists pushed,
           properties' = (properties ++ pushed)%list
           /\ if condition
              then exists entry, fst (stage w) = Normal entry /\ pushed = [entry]
              else pushed = []
     | Throw _ => condition = true
     end.
Proof.
  destruct condition.
  - unfold bind. destruct (stage w) as [[entry|exception] w1]; simpl.
    + intros [= <- <-]. split; [reflexivity|]. exists [entry]. eauto.
    + intros [= <- <-]. auto.
  - intros [= <- <-]. split; [reflexivity|]. exists []. now rewrite app_nil_r.
Qed.

Lemma bind_ret_value {A B} (m : M A) (f : A -> B) (w : World) (result : B) :
  fst (bind m (fun value => ret (f value)) w) = Normal result ->
  exists value, result = f value.
Proof.
  unfold bind. destruct (m w) as [[value|exception] w1]; simpl.
  - intros [= <-]. eauto.
  - discriminate.
Qed.
Lemma classToObject_cases extract printNode formatText (vue : Vue.t) (w : World) :
  extract (source w) = Some vue ->
  let run := classToObject extract printNode formatText w in
  (exists exception,
      fst run = Throw exception
      /\ (source (snd run) = source w
          \/ source (snd run) = Imports.ensure (source w) "vue" ["PropType"]))
  \/ (exists name props data computed before structure,
         fst run = Normal tt
         /\ ClassDeclaration.getName (Vue.declaration vue) = Some name
         /\ (if Nat.ltb 0 (List.length (Vue.props vue))
             then exists entries,
                 props = [Ts.PropertyAssignment (Ts.Identifier "props")
                            (Ts.ObjectLiteralExpression entries true)]
             else props = [])
         /\ (if Nat.ltb 0 (List.length (Vue.data vue))
             then exists entries, data = [dataMethod entries]
             else data = [])
         /\ (if Nat.ltb 0 (List.length (Vue.computed vue))
             then exists entries,
                 computed = [Ts.PropertyAssignment (Ts.Identifier "computed")
                               (Ts.ObjectLiteralExpression entries true)]
             else computed = [])
         /\ ExportAssignment.expression structure
            = printNode
                (componentCall
                   ([Ts.PropertyAssignment (Ts.Identifier "name")
                       (Ts.StringLiteral name true)]
                    ++ map Ts.OfObjectLiteralElement
                         (VueDecorator.properties (Vue.decorator vue))
                    ++ props ++ data ++ computed)%list)
         /\ (before = source w
             \/ before = Imports.ensure (source w) "vue" ["PropType"])
         /\ source (snd run)
            = formatText
                (SourceFile.addExportAssignment structure
                   (SourceFile.remove (Vue.declaration vue) before))).
Proof.
  intros Ex run.
  assert (Hrun : run = classToObject extract printNode formatText w) by reflexivity.
  clearbody run. unfold classToObject in Hrun.
  unfold bind at 1 in Hrun. unfold getSource in Hrun. rewrite Ex in Hrun.
  pose proof (classNameToPropName_state vue w) as S1.
  destruct (classNameToPropName vue w) as [[nameEntry|e1] w1] eqn:E1;
    simpl in S1; subst w1.
  2: { left. rewrite (bind_Throw _ _ _ _ _ E1) in Hrun. subst run. simpl. eauto. }
  rewrite (bind_Normal _ _ _ _ _ E1) in Hrun.
  assert (Hname : exists name,
             ClassDeclaration.getName (Vue.declaration vue) = Some name
             /\ nameEntry = Ts.PropertyAssignment (Ts.Identifier "name")
                              (Ts.StringLiteral name true)).
  { unfold classNameToPropName in E1.
    destruct (ClassDeclaration.getName (Vue.declaration vue)) as [name|];
      [|discriminate].
    injection E1 as <-. eauto. }
  destruct Hname as (name & Hname & ->).
  match type of Hrun with
  | _ = bind ?stage _ _ => destruct (stage w) as [[P1|e2] w2] eqn:E2
  end.
  2: { rewrite (bind_Throw _ _ _ _ _ E2) in Hrun. subst run. left.
       apply optional_stage in E2 as [-> Hc]. rewrite Hc.
       eexists. split; [reflexivity|]. simpl. apply classProps_source. }
  rewrite (bind_Normal _ _ _ _ _ E2) in Hrun.
  apply optional_stage in E2 as [Hw2 (props & -> & Hprops)].
  assert (Hsource2 : source w2 = source w
                     \/ source w2 = Imports.ensure (source w) "vue" ["PropType"]).
  { subst w2. destruct (Nat.ltb 0 (List.length (Vue.props vue)));
      [apply classProps_source | now left]. }
  clear Hw2.
  match type of Hrun with
  | _ = bind ?stage _ _ => destruct (stage w2) as [[P2|e3] w3] eqn:E3
  end.
  2: { rewrite (bind_Throw _ _ _ _ _ E3) in Hrun. subst run. left.
       apply optional_stage in E3 as [-> Hc]. rewrite Hc.
       eexists. split; [reflexivity|]. simpl.
       now rewrite classDataToObjectData_state. }
  rewrite (bind_Normal _ _ _ _ _ E3) in Hrun.
  apply optional_stage in E3 as [Hw3 (data & -> & Hdata)].
  assert (w3 = w2) as ->.
  { subst w3. destruct (Nat.ltb 0 (List.length (Vue.data vue)));
      [apply classDataToObjectData_state | reflexivity]. }
  clear Hw3.
  match type of Hrun with
  | _ = bind ?stage _ _ => destruct (stage w2) as [[P3|e4] w4] eqn:E4
  end.
  2: { rewrite (bind_Throw _ _ _ _ _ E4) in Hrun. subst run. left.
       apply optional_stage in E4 as [-> Hc]. rewrite Hc.
       eexists. split; [reflexivity|]. simpl.
       now rewrite classComputedToObjectComputed_source. }
  rewrite (bind_Normal _ _ _ _ _ E4) in Hrun.
  apply optional_stage in E4 as [Hw4 (computed & -> & Hcomputed)].
  assert (Hsource4 : source w4 = source w2).
  { subst w4. destruct (Nat.ltb 0 (List.length (Vue.computed vue)));
      [apply classComputedToObjectComputed_source | reflexivity]. }
  clear Hw4.
  unfold bind, modifySource in Hrun. simpl in Hrun. subst run.
  right. exists name, props, data, computed, (source w2).
  eexists. split; [reflexivity|]. split; [exact Hname|].
  split; [|split; [|split; [|split; [|split]]]].
  6: { simpl. now rewrite Hsource4. }
  - destruct (Nat.ltb 0 (List.length (Vue.props vue))); [|exact Hprops].
    destruct Hprops as (entry & Hentry & ->).
    unfold classPropsToObjectProps in Hentry.
    apply bind_ret_value in Hentry as (entries & ->). eexists. reflexivity.
  - destruct (Nat.ltb 0 (List.length (Vue.data vue))); [|exact Hdata].
    destruct Hdata as (entry & Hentry & ->).
    unfold classDataToObjectData in Hentry.
    apply bind_ret_value in Hentry as (entries & ->). eexists. reflexivity.
  - destruct (Nat.ltb 0 (List.length (Vue.computed vue))); [|exact Hcomputed].
    destruct Hcomputed as (entry & Hentry & ->).
    unfold classComputedToObjectComputed in Hentry.
    apply bind_ret_value in Hentry as (entries & ->). eexists. reflexivity.
  - cbn [ExportAssignment.expression]. unfold componentCall.
    rewrite <- !app_assoc. reflexivity.
  - exact Hsource2.
Qed.

Lemma classToObject_none extract printNode formatText (w : World) :
  extract (source w) = None ->
  classToObject extract printNode formatText w = (Normal tt, w).
Proof.
  intros Ex. unfold classToObject. unfold bind at 1. unfold getSource.
  now rewrite Ex.
Qed.

(** C5. When [classToObject] completes on an extracted component, the
    export it adds holds the print of one call of [Vue.extend] whose single
    argument is the object literal made of, in this order: the [name] entry,
    the decorator's entries in their order, a [props] entry exactly when
    there is a prop, the [data] method exactly when there is a data field, a
    [computed] entry exactly when the computed mapping has an entry. *)
Theorem classToObject_entry_order extract printNode formatText
    (vue : Vue.t) (w w' : World) :
  extract (source w) = Some vue ->
  classToObject extract printNode formatText w = (Normal tt, w') ->
  exists name props data computed before structure,
    ClassDeclaration.getName (Vue.declaration vue) = Some name
    /\ match Vue.props vue with
       | [] => props = []
       | _ :: _ =>
           exists entries,
             props = [Ts.PropertyAssignment (Ts.Identifier "props")
                        (Ts.ObjectLiteralExpression entries true)]
       end
    /\ match Vue.data vue with
       | [] => data = []
       | _ :: _ => exists entries, data = [dataMethod entries]
       end
    /\ match Vue.computed vue with
       | [] => computed = []
       | _ :: _ =>
           exists entries,
             computed = [Ts.PropertyAssignment (Ts.Identifier "computed")
                           (Ts.ObjectLiteralExpression entries true)]
       end
    /\ ExportAssignment.expression structure
       = printNode
           (Ts.CallExpression
              (Ts.Identifier "Vue.extend")
              [Ts.ObjectLiteralExpression
                 ([Ts.PropertyAssignment (Ts.Identifier "name")
                     (Ts.StringLiteral name true)]
                  ++ map Ts.OfObjectLiteralElement
                       (VueDecorator.properties (Vue.decorator vue))
                  ++ props ++ data ++ computed)%list
                 true])
    /\ source w'
       = formatText
           (SourceFile.addExportAssignment structure
              (SourceFile.remove (Vue.declaration vue) before))
    /\ (before = source w
        \/ before = Imports.ensure (source w) "vue" ["PropType"]).
Proof.
  intros Ex Hrun.
  destruct (classToObject_cases extract printNode formatText vue w Ex)
    as [(exception & Hthrow & _)
       | (name & props & data & computed & before & structure
          & _ & Hname & Hprops & Hdata & Hcomputed & Hexpr & Hbefore & Hsource)];
    cbv zeta in *; rewrite Hrun in *; simpl in *; [discriminate|].
  exists name, props, data, computed, before, structure.
  split; [exact Hname|]. split; [|split; [|split; [|split; [|split]]]].
  - destruct (Vue.props vue); assumption.
  - destruct (Vue.data vue); assumption.
  - destruct (Vue.computed vue); assumption.
  - exact Hexpr.
  - exact Hsource.
  - exact Hbefore.
Qed.

Lemma classToObject_entry_order_witness :
  exists name props data computed before structure,
    ClassDeclaration.getName (Vue.declaration counterComponent) = Some name
    /\ (exists entries,
           props = [Ts.PropertyAssignment (Ts.Identifier "props")
                      (Ts.ObjectLiteralExpression entries true)])
    /\ (exists entries, data = [dataMethod entries])
    /\ (exists entries,
           computed = [Ts.PropertyAssignment (Ts.Identifier "computed")
                         (Ts.ObjectLiteralExpression entries true)])
    /\ ExportAssignment.expression structure
       = calleePrinter
           (Ts.CallExpression
              (Ts.Identifier "Vue.extend")
              [Ts.ObjectLiteralExpression
                 ([Ts.PropertyAssignment (Ts.Identifier "name")
                     (Ts.StringLiteral name true)]
                  ++ map Ts.OfObjectLiteralElement
                       (VueDecorator.properties (Vue.decorator counterComponent))
                  ++ props ++ data ++ computed)%list
                 true])
    /\ source (snd (classToObject (extracting (Some counterComponent))
                      calleePrinter noFormatting sampleWorld))
       = noFormatting
           (SourceFile.addExportAssignment structure
              (SourceFile.remove (Vue.declaration counterComponent) before))
    /\ (before = source sampleWorld
        \/ before = Imports.ensure (source sampleWorld) "vue" ["PropType"]).
Proof.
  exact (classToObject_entry_order
           (extracting (Some counterComponent)) calleePrinter noFormatting
           counterComponent sampleWorld
           (snd (classToObject (extracting (Some counterComponent))
                   calleePrinter noFormatting sampleWorld))
           eq_refl eq_refl).
Defined.

Example counter_component_rewritten :
  classToObject (extracting (Some counterComponent)) calleePrinter noFormatting
    sampleWorld
  = (Normal tt,
     {| source :=
          {| SourceFile.imports := [];
             SourceFile.statements :=
               [SourceFile.Export
                  {| ExportAssignment.expression := "Vue.extend(...)";
                     ExportAssignment.isExportEquals := false;
                     ExportAssignment.leadingTrivia := [] |}] |};
        console := [] |}).
Proof. reflexivity. Qed.

Example counter_component_props :
  fst (classPropsToObjectProps counterComponent sampleWorld)
  = Normal
      (Ts.PropertyAssignment
         (Ts.Identifier "props")
         (Ts.ObjectLiteralExpression
            [Ts.PropertyAssignment
               (Ts.Identifier "label")
               (Ts.ObjectLiteralExpression
                  [typeEntry "String";
                   Ts.PropertyAssignment (Ts.Identifier "default")
                     (Ts.Identifier "'x'")]
                  true)]
            true)).
Proof. reflexivity. Qed.

Example counter_component_computed :
  classComputedToObjectComputed counterComponent sampleWorld
  = (Normal
       (Ts.PropertyAssignment
          (Ts.Identifier "computed")
          (Ts.ObjectLiteralExpression
             [getterMethod "double" (Ts.OfTypeNode (typeNode "number"))
                (block ["return this.count * 2"])]
             true)),
     sampleWorld).
Proof. reflexivity. Qed.

(** C6, as stated, fails on a component with a prop of an interface type
    and a computed setter without getter: the translation throws, the class
    is still in the unit and no export was added, and the unit now imports
    [PropType] from ['vue'], which it did not before. *)
Lemma classToObject_failure_keeps_import :
  classToObject (extracting (Some writeOnlyComponent)) calleePrinter noFormatting
    sampleWorld
  = (Throw (Error "Found an illegal computed setter without a getter."),
     {| source :=
          {| SourceFile.imports :=
               [{| ImportDeclaration.moduleSpecifier := "vue";
                   ImportDeclaration.namedImports := ["PropType"] |}];
             SourceFile.statements := [SourceFile.Class sampleClass] |};
        console := [] |})
  /\ source (snd (classToObject (extracting (Some writeOnlyComponent))
                    calleePrinter noFormatting sampleWorld))
     <> source sampleWorld.
Proof. split; [reflexivity | discriminate]. Qed.

(** C6, as amended.  When [classToObject] throws, the class declaration
    was not removed, no export was added and nothing was reformatted: the
    statements of the unit are the original ones.  The imports of the unit
    are the original ones, or the original ones after [PropType] was ensured
    as a named import from ['vue'] for a prop translated before the
    throw. *)
Theorem classToObject_failure extract printNode formatText
    (w w' : World) (exception : Exception) :
  classToObject extract printNode formatText w = (Throw exception, w') ->
  SourceFile.statements (source w') = SourceFile.statements (source w)
  /\ (source w' = source w
      \/ source w' = Imports.ensure (source w) "vue" ["PropType"]).
Proof.
  intros Hrun.
  destruct (extract (source w)) as [vue|] eqn:Ex.
  - destruct (classToObject_cases extract printNode formatText vue w Ex)
      as [(e & _ & Hsource) | (? & ? & ? & ? & ? & ? & Hnormal & _)];
      cbv zeta in *; rewrite Hrun in *; simpl in *; [|discriminate].
    split; [|exact Hsource].
    destruct Hsource as [-> | ->]; reflexivity.
  - rewrite (classToObject_none _ _ _ _ Ex) in Hrun. discriminate.
Qed.

Lemma classToObject_failure_witness :
  SourceFile.statements
    (source (snd (classToObject (extracting (Some writeOnlyComponent))
                    calleePrinter noFormatting sampleWorld)))
  = SourceFile.statements (source sampleWorld)
  /\ (source (snd (classToObject (extracting (Some writeOnlyComponent))
                     calleePrinter noFormatting sampleWorld))
      = source sampleWorld
      \/ source (snd (classToObject (extracting (Some writeOnlyComponent))
                        calleePrinter noFormatting sampleWorld))
         = Imports.ensure (source sampleWorld) "vue" ["PropType"]).
Proof.
  exact (classToObject_failure
           (extracting (Some writeOnlyComponent)) calleePrinter noFormatting
           sampleWorld
           (snd (classToObject (extracting (Some writeOnlyComponent))
                   calleePrinter noFormatting sampleWorld))
           (Error "Found an illegal computed setter without a getter.")
           eq_refl).
Defined.

(** C9. When the extraction finds no component, [classToObject] returns
    normally and leaves the state as it was: nothing is removed from the
    unit, nothing is added to it, it is not reformatted and nothing is
    logged. *)
Theorem classToObject_no_component extract printNode formatText (w : World) :
  extract (source w) = None ->
  classToObject extract printNode formatText w = (Normal tt, w).
Proof.
  intros Ex. unfold classToObject. unfold bind at 1. unfold getSource.
  now rewrite Ex.
Qed.

Lemma classToObject_no_component_witness :
  classToObject (extracting None) calleePrinter noFormatting sampleWorld
  = (Normal tt, sampleWorld).
Proof.
  exact (classToObject_no_component (extracting None) calleePrinter noFormatting
           sampleWorld eq_refl).
Defined.

(** * Further properties of the engine *)

(** ** The body re-emitter *)

(** The block [transformBlock] emits holds one expression statement per
    statement of the original block, in order, each of them an identifier
    whose text is the original statement's text; the block is laid out on
    several lines whatever [multiline] argument is passed. *)
Lemma transformBlock_statement_texts (block : Block.t) (multiline : option bool) :
  map statementText (blockStatements (transformBlock block multiline))
  = map (fun statement => Some (Statement.getText statement))
        (Block.getStatementsWithComments block)
  /\ exists statements, transformBlock block multiline = Ts.Block statements true.
Proof.
  unfold transformBlock. simpl. split; [|eauto].
  rewrite map_map. reflexivity.
Qed.

(** ** Documentation *)

Lemma join_split (sep : ascii) (s : string) :
  JsString.join (String sep EmptyString) (JsString.split sep s) = s.
Proof.
  induction s as [|c rest IH]; [reflexivity|].
  simpl. destruct (Ascii.eqb c sep) eqn:Ec.
  - apply Ascii.eqb_eq in Ec. subst c.
    destruct (JsString.split sep rest) as [|piece pieces] eqn:E.
    + now apply split_not_nil in E.
    + change (JsString.join (String sep EmptyString) (EmptyString :: piece :: pieces))
        with (String sep (JsString.join (String sep EmptyString) (piece :: pieces))).
      now rewrite IH.
  - destruct (JsString.split sep rest) as [|piece pieces] eqn:E.
    + now apply split_not_nil in E.
    + destruct pieces as [|next pieces].
      * simpl in *. now rewrite IH.
      * change (JsString.join (String sep EmptyString) (String c piece :: next :: pieces))
          with (String c (JsString.join (String sep EmptyString) (piece :: next :: pieces))).
        now rewrite IH.
Qed.

Lemma prefix_injective (prefix a b : string) : prefix ++ a = prefix ++ b -> a = b.
Proof.
  induction prefix as [|c prefix IH]; simpl; [auto|].
  intros [= H]. auto.
Qed.

Lemma map_injective {A B} (f : A -> B) (l l' : list A) :
  (forall a b, f a = f b -> a = b) -> map f l = map f l' -> l = l'.
Proof.
  intros Hf. revert l'. induction l as [|a l IH]; intros [|b l']; simpl;
    try discriminate; [reflexivity|].
  intros [= Hab Hl]. f_equal; auto.
Qed.

Lemma createDocumentation_text (target : Ts.Node) (doc : JSDoc.t)
    (rest : list JSDoc.t) (comment : string) :
  JSDoc.comment doc = Some comment -> comment <> "" ->
  Ts.getSyntheticLeadingComments (createDocumentation target (doc :: rest))
  = (Ts.getSyntheticLeadingComments target
     ++ [Ts.Build_SynthesizedComment Ts.MultiLineCommentTrivia
           ("*" ++ JsString.LF ++
            JsString.join JsString.LF
              (map (fun line => " * " ++ line)
                   (JsString.split JsString.nl comment))
            ++ JsString.LF ++ " ")%string
           true])%list.
Proof.
  intros Hc Hne. apply truthy_iff in Hne.
  unfold createDocumentation. rewrite Hc, Hne.
  apply getSyntheticLeadingComments_add.
Qed.

Lemma comment_text_eq kind text trailing kind' text' trailing' :
  [Ts.Build_SynthesizedComment kind text trailing]
  = [Ts.Build_SynthesizedComment kind' text' trailing'] ->
  text = text'.
Proof. congruence. Qed.

(** X1. [createDocumentation] loses nothing of the comment: when it
    attaches the same result for two documentation blocks with comment text,
    the two comment texts are equal. *)
Theorem createDocumentation_injective (target : Ts.Node)
    (doc doc' : JSDoc.t) (rest rest' : list JSDoc.t) (comment comment' : string) :
  JSDoc.comment doc = Some comment -> comment <> "" ->
  JSDoc.comment doc' = Some comment' -> comment' <> "" ->
  createDocumentation target (doc :: rest) = createDocumentation target (doc' :: rest') ->
  comment = comment'.
Proof.
  intros Hc Hne Hc' Hne' Heq.
  apply (f_equal Ts.getSyntheticLeadingComments) in Heq.
  rewrite (createDocumentation_text _ _ _ _ Hc Hne),
          (createDocumentation_text _ _ _ _ Hc' Hne') in Heq.
  apply app_inv_head, comment_text_eq in Heq.
  apply (f_equal (JsString.split JsString.nl)) in Heq.
  rewrite !documentation_text_lines in Heq.
  injection Heq as Hlines. apply app_inv_tail in Hlines.
  apply map_injective in Hlines; [|intros a b; apply (prefix_injective " * ")].
  rewrite <- (join_split JsString.nl comment), <- (join_split JsString.nl comment').
  now rewrite Hlines.
Qed.

Lemma createDocumentation_injective_witness :
  "The count." = "The count.".
Proof.
  apply (createDocumentation_injective (Ts.Identifier "count")
           otherDoc otherDoc [] [sampleDoc] "The count." "The count.");
    [reflexivity | discriminate | reflexivity | discriminate | reflexivity].
Defined.

(** ** Props *)

Lemma propertyName_createDocumentation (target : Ts.Node) (docs : list JSDoc.t) :
  propertyName (createDocumentation target docs) = propertyName target.
Proof.
  unfold createDocumentation.
  destruct docs as [|doc rest]; [reflexivity|].
  destruct (JSDoc.comment doc) as [comment|]; [|reflexivity].
  destruct (JsString.truthy comment); [|reflexivity].
  destruct target; reflexivity.
Qed.

Lemma nonPrimitiveb_true (prop : VueProp.t) :
  nonPrimitiveb prop = true <-> nonPrimitive prop.
Proof.
  unfold nonPrimitiveb, nonPrimitive, TsType.isString, TsType.isNumber,
    TsType.isBoolean.
  destruct (TsType.intrinsic _); simpl; split; congruence.
Qed.

Lemma nonPrimitiveb_false (prop : VueProp.t) :
  nonPrimitiveb prop = false <-> ~ nonPrimitive prop.
Proof.
  rewrite <- nonPrimitiveb_true. destruct (nonPrimitiveb prop); split; congruence.
Qed.

Lemma propOk_false (prop : VueProp.t) :
  propOk prop = false ->
  nonPrimitive prop
  /\ PropertyDeclaration.getTypeNode (VueProp.declaration prop) = None.
Proof.
  unfold propOk. intros H. apply orb_false_iff in H as [Hn Ht].
  apply negb_false_iff, nonPrimitiveb_true in Hn. split; [assumption|].
  destruct (PropertyDeclaration.getTypeNode _); [discriminate | reflexivity].
Qed.

(** One translatable prop: its entry is keyed by its name, and the import
    is ensured exactly when the prop is not primitive. *)
Lemma classPropToObjectProp_ok (prop : VueProp.t) (w : World) :
  propOk prop = true ->
  exists entry,
    classPropToObjectProp prop w
    = (Normal entry, if nonPrimitiveb prop then withPropType w else w)
    /\ propertyName entry
       = Some (PropertyDeclaration.getName (VueProp.declaration prop)).
Proof.
  intros Hok. unfold classPropToObjectProp.
  destruct (nonPrimitiveb prop) eqn:Hn.
  - apply nonPrimitiveb_true in Hn as Hnp.
    unfold propOk in Hok. rewrite Hn in Hok. simpl in Hok.
    destruct (PropertyDeclaration.getTypeNode (VueProp.declaration prop))
      as [annotation|] eqn:E; [|discriminate].
    rewrite (bind_Normal _ _ _ _ _ (classPropType_annotated _ _ w Hnp E)).
    eexists. split; [reflexivity|]. now rewrite propertyName_createDocumentation.
  - apply nonPrimitiveb_false in Hn as Hnp.
    rewrite (bind_Normal _ _ _ _ _ (classPropType_primitive _ w Hnp)).
    eexists. split; [reflexivity|]. now rewrite propertyName_createDocumentation.
Qed.

Lemma mapM_props_ok (props : list VueProp.t) (w : World) :
  forallb propOk props = true ->
  exists entries,
    mapM classPropToObjectProp props w
    = (Normal entries, if existsb nonPrimitiveb props then withPropType w else w)
    /\ map propertyName entries
       = map (fun prop => Some (PropertyDeclaration.getName (VueProp.declaration prop)))
             props.
Proof.
  revert w. induction props as [|prop rest IH]; intros w Hok.
  - exists []. split; reflexivity.
  - simpl in Hok. apply andb_true_iff in Hok as [Hprop Hrest].
    destruct (classPropToObjectProp_ok prop w Hprop) as (entry & Hrun & Hname).
    destruct (IH (if nonPrimitiveb prop then withPropType w else w) Hrest)
      as (entries & Hruns & Hnames).
    exists (entry :: entries). split.
    + simpl. rewrite (bind_Normal _ _ _ _ _ Hrun), (bind_Normal _ _ _ _ _ Hruns).
      unfold ret. f_equal.
      destruct (nonPrimitiveb prop), (existsb nonPrimitiveb rest); simpl;
        now rewrite ?withPropType_idempotent.
    + simpl. now rewrite Hname, Hnames.
Qed.

Lemma forallb_false {A} (f : A -> bool) (l : list A) :
  forallb f l = false -> exists a, In a l /\ f a = false.
Proof.
  induction l as [|a l IH]; simpl; [discriminate|].
  intros H. apply andb_false_iff in H as [H|H].
  - eauto.
  - destruct (IH H) as (b & Hin & Hb). eauto.
Qed.

(** X2. The props translator completes exactly when every prop that is not
    of type [string], [number] or [boolean] has a type annotation.  It then
    returns the [props] entry holding one entry per prop, keyed by the prop's
    name, in the order of the props, and logs nothing; [PropType] was ensured
    exactly when some prop is not primitive.  Otherwise it throws what
    [getTypeNodeOrThrow] throws, and [PropType] was ensured. *)
Theorem classPropsToObjectProps_complete (vue : Vue.t) (w : World) :
  (forallb propOk (Vue.props vue) = true ->
   exists entries,
     classPropsToObjectProps vue w
     = (Normal (Ts.PropertyAssignment (Ts.Identifier "props")
                  (Ts.ObjectLiteralExpression entries true)),
        afterProps vue w)
     /\ map propertyName entries
        = map (fun prop =>
                 Some (PropertyDeclaration.getName (VueProp.declaration prop)))
              (Vue.props vue))
  /\ (forallb propOk (Vue.props vue) = false ->
      classPropsToObjectProps vue w
      = (Throw (InvalidOperationError "getTypeNodeOrThrow"), withPropType w)).
Proof.
  split; intros Hok; unfold classPropsToObjectProps.
  - destruct (mapM_props_ok _ w Hok) as (entries & Hrun & Hnames).
    exists entries. rewrite (bind_Normal _ _ _ _ _ Hrun). split; [reflexivity|].
    exact Hnames.
  - apply forallb_false in Hok as (prop & Hin & Hbad).
    apply propOk_false in Hbad as [Hn Hnode].
    assert (Hthrows : forall w0, exists exception w',
               classPropToObjectProp prop w0 = (Throw exception, w')).
    { intros w0. unfold classPropToObjectProp.
      rewrite (bind_Throw _ _ _ _ _ (classPropType_unannotated _ w0 Hn Hnode)).
      eauto. }
    destruct (mapM_throws _ _ _ Hthrows Hin w) as (exception & w' & H).
    pose proof (mapM_props_exception _ _ _ _ H) as ->.
    pose proof (mapM_props_ensured _ _ w Hin Hn) as Hs. rewrite H in Hs.
    simpl in Hs. subst w'. now rewrite (bind_Throw _ _ _ _ _ H).
Qed.

Lemma classPropsToObjectProps_complete_witness :
  (exists entries,
      classPropsToObjectProps
        (componentOf [labelProp; interfaceProp; countProp] [] []) sampleWorld
      = (Normal (Ts.PropertyAssignment (Ts.Identifier "props")
                   (Ts.ObjectLiteralExpression entries true)),
         withPropType sampleWorld)
      /\ map propertyName entries = [Some "label"; Some "item"; Some "count"])
  /\ classPropsToObjectProps
       (componentOf [labelProp; unannotatedProp; countProp] [] []) sampleWorld
     = (Throw (InvalidOperationError "getTypeNodeOrThrow"), withPropType sampleWorld).
Proof.
  split.
  - exact (proj1 (classPropsToObjectProps_complete
                    (componentOf [labelProp; interfaceProp; countProp] [] [])
                    sampleWorld) eq_refl).
  - exact (proj2 (classPropsToObjectProps_complete
                    (componentOf [labelProp; unannotatedProp; countProp] [] [])
                    sampleWorld) eq_refl).
Defined.

(** ** Computed *)

Lemma withLogs_nil (w : World) : withLogs [] w = w.
Proof. destruct w. unfold withLogs. simpl. now rewrite app_nil_r. Qed.

Lemma withLogs_app (lines lines' : list string) (w : World) :
  withLogs lines' (withLogs lines w) = withLogs (lines ++ lines') w.
Proof. unfold withLogs. simpl. now rewrite app_assoc. Qed.

(** One translatable entry: what it pushes and what it logs. *)
Lemma computed_body_ok (properties : list Ts.Node)
    (entry : string * VueComputed.t) (w : World) :
  computedOk entry = true ->
  exists pushed,
    classComputedToObjectComputed_body properties entry w
    = (Normal (properties ++ pushed)%list, withLogs (computedDiagnostics entry) w)
    /\ map propertyName pushed = map Some (computedKey entry).
Proof.
  destruct entry as [name accessors].
  unfold computedOk, computedDiagnostics, computedKey,
    classComputedToObjectComputed_body. simpl.
  destruct (VueComputed.getter accessors) as [getter|];
    destruct (VueComputed.setter accessors) as [setter|]; try discriminate.
  - unfold classComputedPropertyToObjectComputedProperty.
    destruct (SetAccessorDeclaration.getParameters setter) as [|setParameter others];
      [discriminate|].
    destruct (SetAccessorDeclaration.getBody setter) as [setterBody|];
      [|discriminate].
    destruct (GetAccessorDeclaration.getBody getter) as [getterBody|];
      [|discriminate].
    intros _.
    destruct (ParameterDeclaration.getTypeNode setParameter) as [parameterType|];
      eexists;
      (split;
       [unfold bind; simpl; unfold ret; rewrite ?withLogs_nil; reflexivity
       | reflexivity]).
  - unfold classComputedGetterToObjectComputedGetter.
    destruct (GetAccessorDeclaration.getBody getter) as [getterBody|];
      [|discriminate].
    intros _.
    destruct (GetAccessorDeclaration.getReturnTypeNode getter) as [returnType|];
      eexists;
      (split;
       [unfold bind; simpl; unfold ret; rewrite ?withLogs_nil; reflexivity
       | reflexivity]).
  - intros _. exists []. rewrite app_nil_r, withLogs_nil. split; reflexivity.
Qed.

Lemma computed_loop_ok (entries : list (string * VueComputed.t)) :
  forall (properties : list Ts.Node) (w : World),
    forallb computedOk entries = true ->
    exists pushed,
      forOf entries classComputedToObjectComputed_body properties w
      = (Normal (properties ++ pushed)%list,
         withLogs (flat_map computedDiagnostics entries) w)
      /\ map propertyName pushed = map Some (flat_map computedKey entries).
Proof.
  induction entries as [|entry rest IH]; intros properties w Hok.
  - exists []. simpl. rewrite app_nil_r, withLogs_nil. split; reflexivity.
  - simpl in Hok. apply andb_true_iff in Hok as [Hentry Hrest].
    destruct (computed_body_ok properties entry w Hentry) as (pushed & Hrun & Hkeys).
    destruct (IH (properties ++ pushed)%list
                 (withLogs (computedDiagnostics entry) w) Hrest)
      as (pushed' & Hruns & Hkeys').
    exists (pushed ++ pushed')%list. split.
    + cbn [forOf]. rewrite (bind_Normal _ _ _ _ _ Hrun), Hruns.
      cbn [flat_map]. now rewrite withLogs_app, app_assoc.
    + cbn [flat_map]. now rewrite !map_app, Hkeys, Hkeys'.
Qed.

(** One entry that cannot be translated throws, whatever came before. *)
Lemma computed_body_bad (entry : string * VueComputed.t) :
  computedOk entry = false ->
  forall (properties : list Ts.Node) (w : World),
  exists exception w',
    classComputedToObjectComputed_body properties entry w = (Throw exception, w').
Proof.
  destruct entry as [name accessors].
  unfold computedOk, classComputedToObjectComputed_body. simpl.
  intros Hbad properties w.
  destruct (VueComputed.getter accessors) as [getter|];
    destruct (VueComputed.setter accessors) as [setter|]; try discriminate.
  - unfold classComputedPropertyToObjectComputedProperty.
    destruct (SetAccessorDeclaration.getParameters setter) as [|setParameter others];
      [do 2 eexists; reflexivity|].
    destruct (SetAccessorDeclaration.getBody setter) as [setterBody|];
      [|do 2 eexists; reflexivity].
    destruct (GetAccessorDeclaration.getBody getter) as [getterBody|];
      [discriminate|].
    destruct (ParameterDeclaration.getTypeNode setParameter);
      do 2 eexists; reflexivity.
  - unfold classComputedGetterToObjectComputedGetter.
    destruct (GetAccessorDeclaration.getBody getter) as [getterBody|];
      [discriminate|].
    destruct (GetAccessorDeclaration.getReturnTypeNode getter);
      do 2 eexists; reflexivity.
  - do 2 eexists; reflexivity.
Qed.

(** X3. The computed translator completes exactly when every entry of the
    mapping can be translated: an entry with a getter needs the getter's
    body and, when it also has a setter, the setter's first parameter and
    body; an entry with only a setter cannot.  It then returns the
    [computed] entry whose keys are the names of the mapping's entries that
    have a getter, in enumeration order (an entry with neither accessor is
    skipped); the source file is untouched and the console received the
    diagnostics of the entries, in order.  Otherwise it throws and the source
    file is untouched. *)
Theorem classComputedToObjectComputed_complete (vue : Vue.t) (w : World) :
  (forallb computedOk (Vue.computed vue) = true ->
   exists entries,
     classComputedToObjectComputed vue w
     = (Normal (Ts.PropertyAssignment (Ts.Identifier "computed")
                  (Ts.ObjectLiteralExpression entries true)),
        withLogs (flat_map computedDiagnostics (Vue.computed vue)) w)
     /\ map propertyName entries
        = map Some (flat_map computedKey (Vue.computed vue)))
  /\ (forallb computedOk (Vue.computed vue) = false ->
      exists exception w',
        classComputedToObjectComputed vue w = (Throw exception, w')
        /\ source w' = source w).
Proof.
  split; intros Hok; unfold classComputedToObjectComputed.
  - destruct (computed_loop_ok _ [] w Hok) as (entries & Hrun & Hkeys).
    exists entries. rewrite (bind_Normal _ _ _ _ _ Hrun). split; [reflexivity|].
    exact Hkeys.
  - apply forallb_false in Hok as (entry & Hin & Hbad).
    destruct (forOf_throws _ _ _ (computed_body_bad entry Hbad) Hin [] w)
      as (exception & w' & H).
    exists exception, w'. rewrite (bind_Throw _ _ _ _ _ H). split; [reflexivity|].
    pose proof (classComputedToObjectComputed_source vue w) as Hs.
    unfold classComputedToObjectComputed in Hs.
    now rewrite (bind_Throw _ _ _ _ _ H) in Hs.
Qed.

Lemma classComputedToObjectComputed_complete_witness :
  (exists entries,
      classComputedToObjectComputed (componentOf [] [] mixedComputed) sampleWorld
      = (Normal (Ts.PropertyAssignment (Ts.Identifier "computed")
                   (Ts.ObjectLiteralExpression entries true)),
         withLogs [pairDiagnostic "title"; getterDiagnostic "label"] sampleWorld)
      /\ map propertyName entries = [Some "title"; Some "double"; Some "label"])
  /\ (exists exception w',
         classComputedToObjectComputed
           (componentOf [] [] [("double", getterOnly doubleGetter);
                               ("total", getterOnly abstractGetter)])
           sampleWorld
         = (Throw exception, w')
         /\ source w' = source sampleWorld).
Proof.
  split.
  - exact (proj1 (classComputedToObjectComputed_complete
                    (componentOf [] [] mixedComputed) sampleWorld) eq_refl).
  - exact (proj2 (classComputedToObjectComputed_complete
                    (componentOf [] [] [("double", getterOnly doubleGetter);
                                        ("total", getterOnly abstractGetter)])
                    sampleWorld) eq_refl).
Defined.

(** An entry either logs its diagnostics or throws before logging. *)
Lemma computed_body_console (entry : string * VueComputed.t)
    (properties : list Ts.Node) (w : World) :
  (exists result,
      classComputedToObjectComputed_body properties entry w
      = (result, withLogs (computedDiagnostics entry) w))
  \/ (exists exception,
         classComputedToObjectComputed_body properties entry w
         = (Throw exception, w)).
Proof.
  destruct entry as [name accessors].
  unfold computedDiagnostics, classComputedToObjectComputed_body. simpl.
  destruct (VueComputed.getter accessors) as [getter|];
    destruct (VueComputed.setter accessors) as [setter|].
  - unfold classComputedPropertyToObjectComputedProperty.
    destruct (SetAccessorDeclaration.getParameters setter) as [|setParameter others];
      [right; eexists; reflexivity|].
    destruct (SetAccessorDeclaration.getBody setter) as [setterBody|];
      [|right; eexists; reflexivity].
    destruct (ParameterDeclaration.getTypeNode setParameter) as [parameterType|];
      destruct (GetAccessorDeclaration.getBody getter) as [getterBody|];
      try (right; eexists; reflexivity);
      left; eexists; unfold bind; simpl; unfold ret; rewrite ?withLogs_nil;
      reflexivity.
  - unfold classComputedGetterToObjectComputedGetter.
    destruct (GetAccessorDeclaration.getReturnTypeNode getter) as [returnType|];
      destruct (GetAccessorDeclaration.getBody getter) as [getterBody|];
      try (right; eexists; reflexivity);
      left; eexists; unfold bind; simpl; unfold ret; rewrite ?withLogs_nil;
      reflexivity.
  - right. eexists. reflexivity.
  - left. eexists. rewrite withLogs_nil. reflexivity.
Qed.

Lemma computed_loop_console (entries : list (string * VueComputed.t)) :
  forall (properties : list Ts.Node) (w : World),
  exists logs rest,
    snd (forOf entries classComputedToObjectComputed_body properties w)
    = withLogs logs w
    /\ flat_map computedDiagnostics entries = (logs ++ rest)%list.
Proof.
  induction entries as [|entry others IH]; intros properties w.
  - exists [], []. simpl. now rewrite withLogs_nil.
  - cbn [forOf flat_map].
    destruct (computed_body_console entry properties w)
      as [([properties'|exception] & Hrun) | (exception & Hrun)].
    + rewrite (bind_Normal _ _ _ _ _ Hrun).
      destruct (IH properties' (withLogs (computedDiagnostics entry) w))
        as (logs & rest & Hstate & Hrest).
      exists (computedDiagnostics entry ++ logs)%list, rest.
      rewrite Hstate, withLogs_app, Hrest, app_assoc. split; reflexivity.
    + rewrite (bind_Throw _ _ _ _ _ Hrun).
      exists (computedDiagnostics entry), (flat_map computedDiagnostics others).
      split; reflexivity.
    + rewrite (bind_Throw _ _ _ _ _ Hrun).
      exists [], (computedDiagnostics entry ++ flat_map computedDiagnostics others)%list.
      simpl. now rewrite withLogs_nil.
Qed.

(** X4. Whether it completes or throws, the computed translator keeps the
    lines that were on the console and adds only diagnostics of the mapping's
    entries, in enumeration order and without a gap: what it adds is an
    initial segment of the list of the entries' diagnostics. *)
Theorem classComputedToObjectComputed_console (vue : Vue.t) (w : World) :
  exists logs rest,
    console (snd (classComputedToObjectComputed vue w)) = (console w ++ logs)%list
    /\ flat_map computedDiagnostics (Vue.computed vue) = (logs ++ rest)%list.
Proof.
  destruct (computed_loop_console (Vue.computed vue) [] w)
    as (logs & rest & Hstate & Hrest).
  exists logs, rest. split; [|exact Hrest].
  unfold classComputedToObjectComputed. rewrite bind_ret_state, Hstate.
  reflexivity.
Qed.

(** ** The assembler, stage by stage *)

Lemma afterProps_bad (vue : Vue.t) (w : World) :
  forallb propOk (Vue.props vue) = false -> afterProps vue w = withPropType w.
Proof.
  intros Hbad. apply forallb_false in Hbad as (prop & Hin & Hprop).
  apply propOk_false in Hprop as [Hn _]. apply nonPrimitiveb_true in Hn.
  unfold afterProps.
  replace (existsb nonPrimitiveb (Vue.props vue)) with true; [reflexivity|].
  symmetry. apply existsb_exists. eauto.
Qed.

Lemma props_stage_ok (vue : Vue.t) (properties : list Ts.Node) (w : World) :
  forallb propOk (Vue.props vue) = true ->
  exists pushed,
    (if Nat.ltb 0 (List.length (Vue.props vue)) then
       bind (classPropsToObjectProps vue)
            (fun props => ret (properties ++ [props])%list)
     else ret properties) w
    = (Normal (properties ++ pushed)%list, afterProps vue w).
Proof.
  intros Hok. unfold afterProps.
  destruct (Vue.props vue) as [|prop rest] eqn:E.
  - exists []. simpl. now rewrite app_nil_r.
  - destruct (mapM_props_ok (prop :: rest) w Hok) as (entries & Hrun & _).
    eexists [_]. cbn [List.length Nat.ltb Nat.leb].
    unfold classPropsToObjectProps. rewrite E.
    unfold bind at 1. unfold bind at 1. rewrite Hrun. reflexivity.
Qed.

Lemma props_stage_bad (vue : Vue.t) (properties : list Ts.Node) (w : World) :
  forallb propOk (Vue.props vue) = false ->
  (if Nat.ltb 0 (List.length (Vue.props vue)) then
     bind (classPropsToObjectProps vue)
          (fun props => ret (properties ++ [props])%list)
   else ret properties) w
  = (Throw (InvalidOperationError "getTypeNodeOrThrow"), withPropType w).
Proof.
  intros Hbad.
  assert (Hrun : classPropsToObjectProps vue w
                 = (Throw (InvalidOperationError "getTypeNodeOrThrow"),
                    withPropType w)).
  { apply forallb_false in Hbad as (prop & Hin & Hprop).
    apply propOk_false in Hprop as [Hn Hnode].
    assert (Hthrows : forall w0, exists exception w',
               classPropToObjectProp prop w0 = (Throw exception, w')).
    { intros w0. unfold classPropToObjectProp.
      rewrite (bind_Throw _ _ _ _ _ (classPropType_unannotated _ w0 Hn Hnode)).
      eauto. }
    destruct (mapM_throws _ _ _ Hthrows Hin w) as (exception & w' & H).
    pose proof (mapM_props_exception _ _ _ _ H) as ->.
    pose proof (mapM_props_ensured _ _ w Hin Hn) as Hs. rewrite H in Hs.
    simpl in Hs. subst w'. unfold classPropsToObjectProps.
    now rewrite (bind_Throw _ _ _ _ _ H). }
  destruct (Vue.props vue) as [|prop rest]; [discriminate|].
  cbn [List.length Nat.ltb Nat.leb]. now rewrite (bind_Throw _ _ _ _ _ Hrun).
Qed.

Lemma forallb_dataOk (data : list PropertyDeclaration.t) :
  forallb dataOk data = true ->
  exists values, map PropertyDeclaration.getInitializer data = map Some values.
Proof.
  induction data as [|declaration rest IH]; simpl; intros H.
  - exists []. reflexivity.
  - apply andb_true_iff in H as [Hd Hrest]. destruct (IH Hrest) as (values & Hv).
    unfold dataOk in Hd.
    destruct (PropertyDeclaration.getInitializer declaration) as [value|] eqn:E;
      [|discriminate].
    exists (value :: values). simpl. now rewrite Hv.
Qed.

Lemma data_stage_ok (vue : Vue.t) (properties : list Ts.Node) (w : World) :
  forallb dataOk (Vue.data vue) = true ->
  exists pushed,
    (if Nat.ltb 0 (List.length (Vue.data vue)) then
       bind (classDataToObjectData vue)
            (fun data => ret (properties ++ [data])%list)
     else ret properties) w
    = (Normal (properties ++ pushed)%list, w).
Proof.
  intros Hok. destruct (forallb_dataOk _ Hok) as (values & Hvalues).
  pose proof (data_loop _ values [] w Hvalues) as Hloop.
  destruct (Vue.data vue) as [|declaration rest] eqn:E.
  - exists []. simpl. now rewrite app_nil_r.
  - eexists [_]. cbn [List.length Nat.ltb Nat.leb].
    unfold classDataToObjectData. rewrite E.
    unfold bind at 1. unfold bind at 1. rewrite Hloop. reflexivity.
Qed.

Lemma data_stage_bad (vue : Vue.t) (properties : list Ts.Node) (w : World) :
  forallb dataOk (Vue.data vue) = false ->
  (if Nat.ltb 0 (List.length (Vue.data vue)) then
     bind (classDataToObjectData vue)
          (fun data => ret (properties ++ [data])%list)
   else ret properties) w
  = (Throw (InvalidOperationError "getInitializerOrThrow"), w).
Proof.
  intros Hbad.
  assert (Hrun : classDataToObjectData vue w
                 = (Throw (InvalidOperationError "getInitializerOrThrow"), w)).
  { apply forallb_false in Hbad as (declaration & Hin & Hd).
    unfold dataOk in Hd.
    destruct (PropertyDeclaration.getInitializer declaration) eqn:E;
      [discriminate|].
    unfold classDataToObjectData.
    now rewrite (bind_Throw _ _ _ _ _ (data_loop_throws _ _ Hin E [] w)). }
  destruct (Vue.data vue) as [|declaration rest]; [discriminate|].
  cbn [List.length Nat.ltb Nat.leb]. now rewrite (bind_Throw _ _ _ _ _ Hrun).
Qed.

Lemma computed_stage_ok (vue : Vue.t) (properties : list Ts.Node) (w : World) :
  forallb computedOk (Vue.computed vue) = true ->
  exists pushed,
    (if Nat.ltb 0 (List.length (Vue.computed vue)) then
       bind (classComputedToObjectComputed vue)
            (fun computed => ret (properties ++ [computed])%list)
     else ret properties) w
    = (Normal (properties ++ pushed)%list,
       withLogs (flat_map computedDiagnostics (Vue.computed vue)) w).
Proof.
  intros Hok.
  destruct (computed_loop_ok _ [] w Hok) as (entries & Hloop & _).
  destruct (Vue.computed vue) as [|entry rest] eqn:E.
  - exists []. simpl. now rewrite app_nil_r, withLogs_nil.
  - eexists [_]. cbn [List.length Nat.ltb Nat.leb].
    unfold classComputedToObjectComputed. rewrite E.
    unfold bind at 1. unfold bind at 1. rewrite Hloop. reflexivity.
Qed.

Lemma computed_stage_bad (vue : Vue.t) (properties : list Ts.Node) (w : World) :
  forallb computedOk (Vue.computed vue) = false ->
  exists exception w',
    (if Nat.ltb 0 (List.length (Vue.computed vue)) then
       bind (classComputedToObjectComputed vue)
            (fun computed => ret (properties ++ [computed])%list)
     else ret properties) w
    = (Throw exception, w')
    /\ source w' = source w.
Proof.
  intros Hbad.
  assert (Hrun : exists exception w',
             classComputedToObjectComputed vue w = (Throw exception, w')
             /\ source w' = source w).
  { apply forallb_false in Hbad as (entry & Hin & Hentry).
    destruct (forOf_throws _ _ _ (computed_body_bad entry Hentry) Hin [] w)
      as (exception & w' & H).
    exists exception, w'. unfold classComputedToObjectComputed.
    rewrite (bind_Throw _ _ _ _ _ H). split; [reflexivity|].
    pose proof (classComputedToObjectComputed_source vue w) as Hs.
    unfold classComputedToObjectComputed in Hs.
    now rewrite (bind_Throw _ _ _ _ _ H) in Hs. }
  destruct Hrun as (exception & w' & Hrun & Hsource).
  exists exception, w'. split; [|exact Hsource].
  destruct (Vue.computed vue) as [|entry rest]; [discriminate|].
  cbn [List.length Nat.ltb Nat.leb]. now rewrite (bind_Throw _ _ _ _ _ Hrun).
Qed.

Lemma forOf_exception {A B} (P : Exception -> Prop)
    (body : list B -> A -> M (list B)) (items : list A) :
  (forall properties item w exception w',
      body properties item w = (Throw exception, w') -> P exception) ->
  forall properties w exception w',
    forOf items body properties w = (Throw exception, w') -> P exception.
Proof.
  intros Hbody. induction items as [|item rest IH]; intros properties w e w'.
  - discriminate.
  - simpl. destruct (body properties item w) as [[properties'|e0] w1] eqn:E.
    + rewrite (bind_Normal _ _ _ _ _ E). apply IH.
    + rewrite (bind_Throw _ _ _ _ _ E). intros [= <- <-]. eapply Hbody, E.
Qed.

Lemma computed_body_exception (properties : list Ts.Node)
    (entry : string * VueComputed.t) (w : World) exception w' :
  classComputedToObjectComputed_body properties entry w = (Throw exception, w') ->
  In exception computedExceptions.
Proof.
  destruct entry as [name accessors].
  unfold classComputedToObjectComputed_body, computedExceptions.
  destruct (VueComputed.getter accessors) as [getter|];
    destruct (VueComputed.setter accessors) as [setter|].
  - unfold classComputedPropertyToObjectComputedProperty.
    destruct (SetAccessorDeclaration.getParameters setter) as [|setParameter others];
      [intros [= <- <-]; simpl; auto|].
    destruct (SetAccessorDeclaration.getBody setter) as [setterBody|];
      [|intros [= <- <-]; simpl; auto].
    destruct (ParameterDeclaration.getTypeNode setParameter);
      destruct (GetAccessorDeclaration.getBody getter);
      unfold bind; simpl; intros [= <- <-] || discriminate; simpl; auto.
  - unfold classComputedGetterToObjectComputedGetter.
    destruct (GetAccessorDeclaration.getReturnTypeNode getter);
      destruct (GetAccessorDeclaration.getBody getter);
      unfold bind; simpl; intros [= <- <-] || discriminate; simpl; auto.
  - intros [= <- <-]. simpl. auto.
  - discriminate.
Qed.

(** What [classToObject] does once the class has a name, by the first stage
    that cannot complete. *)
Lemma classToObject_outcome extract printNode formatText
    (vue : Vue.t) (w : World) (name : string) :
  extract (source w) = Some vue ->
  ClassDeclaration.getName (Vue.declaration vue) = Some name ->
  let run := classToObject extract printNode formatText w in
  if forallb propOk (Vue.props vue) then
    if forallb dataOk (Vue.data vue) then
      if forallb computedOk (Vue.computed vue) then
        exists props data computed,
          run = (Normal tt,
                 rewritten printNode formatText vue name props data computed w)
      else
        exists exception w',
          run = (Throw exception, w')
          /\ In exception computedExceptions
          /\ source w' = source (afterProps vue w)
    else run = (Throw (InvalidOperationError "getInitializerOrThrow"),
                afterProps vue w)
  else run = (Throw (InvalidOperationError "getTypeNodeOrThrow"), withPropType w).
Proof.
  intros Ex Hname run.
  assert (Hrun : run = classToObject extract printNode formatText w) by reflexivity.
  clearbody run. unfold classToObject in Hrun.
  unfold bind at 1 in Hrun. unfold getSource in Hrun. rewrite Ex in Hrun.
  assert (E1 : classNameToPropName vue w
               = (Normal (Ts.PropertyAssignment (Ts.Identifier "name")
                            (Ts.StringLiteral name true)), w)).
  { unfold classNameToPropName. now rewrite Hname. }
  rewrite (bind_Normal _ _ _ _ _ E1) in Hrun.
  destruct (forallb propOk (Vue.props vue)) eqn:Hprops.
  2: { now rewrite (bind_Throw _ _ _ _ _ (props_stage_bad vue _ w Hprops)) in Hrun. }
  match type of Hrun with
  | _ = bind (if _ then bind _ (fun _ => ret (?P ++ _)%list) else _) _ _ =>
      destruct (props_stage_ok vue P w Hprops) as (props & E2)
  end.
  rewrite (bind_Normal _ _ _ _ _ E2) in Hrun.
  destruct (forallb dataOk (Vue.data vue)) eqn:Hdata.
  2: { now rewrite (bind_Throw _ _ _ _ _
                      (data_stage_bad vue _ (afterProps vue w) Hdata)) in Hrun. }
  match type of Hrun with
  | _ = bind (if _ then bind _ (fun _ => ret (?P ++ _)%list) else _) _ _ =>
      destruct (data_stage_ok vue P (afterProps vue w) Hdata) as (data & E3)
  end.
  rewrite (bind_Normal _ _ _ _ _ E3) in Hrun.
  destruct (forallb computedOk (Vue.computed vue)) eqn:Hcomputed.
  2: { match type of Hrun with
       | _ = bind (if _ then bind _ (fun _ => ret (?P ++ _)%list) else _) _ _ =>
           destruct (computed_stage_bad vue P (afterProps vue w) Hcomputed)
             as (exception & w' & E4 & Hsource)
       end.
       rewrite (bind_Throw _ _ _ _ _ E4) in Hrun.
       exists exception, w'. split; [exact Hrun|]. split; [|exact Hsource].
       clear Hrun.
       destruct (Vue.computed vue) as [|entry rest] eqn:Ec; [discriminate|].
       cbn [List.length Nat.ltb Nat.leb] in E4.
       unfold bind at 1 in E4. unfold classComputedToObjectComputed in E4.
       unfold bind at 1 in E4.
       destruct (forOf (Vue.computed vue) classComputedToObjectComputed_body []
                   (afterProps vue w)) as [[entries|e] w1] eqn:Eloop;
         [discriminate|].
       injection E4 as <- <-.
       eapply (forOf_exception (fun e => In e computedExceptions));
         [|exact Eloop].
       intros. eapply computed_body_exception. eassumption. }
  match type of Hrun with
  | _ = bind (if _ then bind _ (fun _ => ret (?P ++ _)%list) else _) _ _ =>
      destruct (computed_stage_ok vue P (afterProps vue w) Hcomputed)
        as (computed & E4)
  end.
  rewrite (bind_Normal _ _ _ _ _ E4) in Hrun.
  exists props, data, computed. rewrite Hrun.
  unfold bind, modifySource, rewritten, componentCall, ret.
  cbn [source console withLogs]. rewrite <- !app_assoc.
  assert (Hconsole : console (afterProps vue w) = console w).
  { unfold afterProps. destruct (existsb nonPrimitiveb (Vue.props vue)); reflexivity. }
  rewrite Hconsole. unfold exportTrivia.
  destruct (ClassDeclaration.getJsDocs (Vue.declaration vue)); reflexivity.
Qed.

Lemma classToObject_unnamed extract printNode formatText (vue : Vue.t) (w : World) :
  extract (source w) = Some vue ->
  ClassDeclaration.getName (Vue.declaration vue) = None ->
  classToObject extract printNode formatText w
  = (Throw (InvalidOperationError "getNameOrThrow"), w).
Proof.
  intros Ex Hname. unfold classToObject. unfold bind at 1. unfold getSource.
  rewrite Ex. unfold bind at 1. unfold classNameToPropName. now rewrite Hname.
Qed.

(** ** The assembler *)

(** X5. [classToObject] stops at the first stage that cannot complete, in
    the order name, props, data, computed.  A class without a name throws
    what [getNameOrThrow] throws and leaves the state as it was, whatever
    the props are.  With a name, a prop that cannot be translated throws
    what [getTypeNodeOrThrow] throws, whatever the data fields and the
    computed entries are; with translatable props, a data field without
    initializer throws what [getInitializerOrThrow] throws; with
    translatable props and data, a computed entry that cannot be translated
    throws one of the three exceptions of the computed translator.  In the
    last two cases the source file is the original one in which [PropType]
    was ensured exactly when some prop is not primitive. *)
Theorem classToObject_first_failure extract printNode formatText
    (vue : Vue.t) (w : World) :
  extract (source w) = Some vue ->
  let run := classToObject extract printNode formatText w in
  (ClassDeclaration.getName (Vue.declaration vue) = None ->
   run = (Throw (InvalidOperationError "getNameOrThrow"), w))
  /\ (ClassDeclaration.getName (Vue.declaration vue) <> None ->
      forallb propOk (Vue.props vue) = false ->
      run = (Throw (InvalidOperationError "getTypeNodeOrThrow"), withPropType w))
  /\ (ClassDeclaration.getName (Vue.declaration vue) <> None ->
      forallb propOk (Vue.props vue) = true ->
      forallb dataOk (Vue.data vue) = false ->
      run = (Throw (InvalidOperationError "getInitializerOrThrow"),
             afterProps vue w))
  /\ (ClassDeclaration.getName (Vue.declaration vue) <> None ->
      forallb propOk (Vue.props vue) = true ->
      forallb dataOk (Vue.data vue) = true ->
      forallb computedOk (Vue.computed vue) = false ->
      exists exception w',
        run = (Throw exception, w')
        /\ In exception computedExceptions
        /\ source w' = source (afterProps vue w)).
Proof.
  intros Ex run. subst run.
  split; [now apply classToObject_unnamed|].
  destruct (ClassDeclaration.getName (Vue.declaration vue)) as [name|] eqn:Hname.
  2: { repeat split; intros H; now contradiction H. }
  pose proof (classToObject_outcome extract printNode formatText vue w name Ex Hname)
    as H. cbv zeta in H.
  split; [|split].
  - intros _ Hprops. now rewrite Hprops in H.
  - intros _ Hprops Hdata. now rewrite Hprops, Hdata in H.
  - intros _ Hprops Hdata Hcomputed. now rewrite Hprops, Hdata, Hcomputed in H.
Qed.

Lemma classToObject_first_failure_witness :
  classToObject (extracting (Some unnamedComponent)) calleePrinter noFormatting
    sampleWorld
  = (Throw (InvalidOperationError "getNameOrThrow"), sampleWorld)
  /\ classToObject
       (extracting (Some (componentOf [unannotatedProp] [pendingField]
                            [("title", setterOnly titleSetter)])))
       calleePrinter noFormatting sampleWorld
     = (Throw (InvalidOperationError "getTypeNodeOrThrow"), withPropType sampleWorld)
  /\ classToObject
       (extracting (Some (componentOf [labelProp] [pendingField]
                            [("title", setterOnly titleSetter)])))
       calleePrinter noFormatting sampleWorld
     = (Throw (InvalidOperationError "getInitializerOrThrow"), sampleWorld)
  /\ (exists exception w',
         classToObject (extracting (Some writeOnlyComponent)) calleePrinter
           noFormatting sampleWorld
         = (Throw exception, w')
         /\ In exception computedExceptions
         /\ source w' = source (withPropType sampleWorld)).
Proof.
  split; [|split; [|split]].
  - exact (proj1 (classToObject_first_failure
                    (extracting (Some unnamedComponent)) calleePrinter noFormatting
                    unnamedComponent sampleWorld eq_refl) eq_refl).
  - apply (proj1 (proj2 (classToObject_first_failure
                    (extracting (Some (componentOf [unannotatedProp] [pendingField]
                                         [("title", setterOnly titleSetter)])))
                    calleePrinter noFormatting _ sampleWorld eq_refl)));
      [discriminate | reflexivity].
  - apply (proj1 (proj2 (proj2 (classToObject_first_failure
                    (extracting (Some (componentOf [labelProp] [pendingField]
                                         [("title", setterOnly titleSetter)])))
                    calleePrinter noFormatting _ sampleWorld eq_refl))));
      [discriminate | reflexivity | reflexivity].
  - apply (proj2 (proj2 (proj2 (classToObject_first_failure
                    (extracting (Some writeOnlyComponent)) calleePrinter
                    noFormatting writeOnlyComponent sampleWorld eq_refl))));
      [discriminate | reflexivity | reflexivity | reflexivity].
Defined.

(** X6. On an extracted component, [classToObject] completes exactly when
    the class has a name, every prop that is not primitive has a type
    annotation, every data field has an initializer and every computed entry
    can be translated. *)
Theorem classToObject_completes_iff extract printNode formatText
    (vue : Vue.t) (w : World) :
  extract (source w) = Some vue ->
  (exists w', classToObject extract printNode formatText w = (Normal tt, w'))
  <-> componentOk vue = true.
Proof.
  intros Ex. unfold componentOk.
  destruct (ClassDeclaration.getName (Vue.declaration vue)) as [name|] eqn:Hname.
  - pose proof (classToObject_outcome extract printNode formatText vue w name
                  Ex Hname) as H. cbv zeta in H. simpl.
    destruct (forallb propOk (Vue.props vue));
      [|rewrite H; split; [intros [w' Hw']|]; discriminate].
    destruct (forallb dataOk (Vue.data vue));
      [|rewrite H; split; [intros [w' Hw']|]; discriminate].
    destruct (forallb computedOk (Vue.computed vue)).
    + destruct H as (props & data & computed & H). rewrite H.
      split; [reflexivity | eauto].
    + destruct H as (exception & w1 & H & _). rewrite H.
      split; [intros [w' Hw']|]; discriminate.
  - rewrite (classToObject_unnamed _ _ _ _ _ Ex Hname). simpl.
    split; [intros [w' Hw']|]; discriminate.
Qed.

Lemma classToObject_completes_iff_witness :
  (exists w',
      classToObject (extracting (Some documentedComponent)) calleePrinter
        noFormatting documentedWorld
      = (Normal tt, w'))
  <-> componentOk documentedComponent = true.
Proof.
  exact (classToObject_completes_iff
           (extracting (Some documentedComponent)) calleePrinter noFormatting
           documentedComponent documentedWorld eq_refl).
Defined.

(** X7. When [classToObject] completes on an extracted component, the unit
    is the formatted result of this rewrite: every statement other than the
    class declaration is kept, in order; one export, not an [export =], is
    the new last statement, and its leading trivia is the full text of the
    class's first documentation block when that text is not empty, and
    nothing otherwise; of the imports only [PropType] from ['vue'] can be
    new, and it is ensured exactly when some prop is not primitive.  The
    console received exactly the diagnostics of the computed entries, in
    order. *)
Theorem classToObject_rewritten_unit extract printNode formatText
    (vue : Vue.t) (w : World) :
  extract (source w) = Some vue ->
  componentOk vue = true ->
  exists expression,
    classToObject extract printNode formatText w
    = (Normal tt,
       {| source :=
            formatText
              {| SourceFile.imports :=
                   SourceFile.imports
                     (if existsb nonPrimitiveb (Vue.props vue)
                      then Imports.ensure (source w) "vue" ["PropType"]
                      else source w);
                 SourceFile.statements :=
                   (filter
                      (fun statement =>
                         negb (SourceFile.isDeclaration (Vue.declaration vue) statement))
                      (SourceFile.statements (source w))
                    ++ [SourceFile.Export
                          {| ExportAssignment.expression := expression;
                             ExportAssignment.isExportEquals := false;
                             ExportAssignment.leadingTrivia :=
                               match ClassDeclaration.getJsDocs (Vue.declaration vue) with
                               | doc :: _ =>
                                   if JsString.truthy (JSDoc.getFullText doc)
                                   then [JSDoc.getFullText doc]
                                   else []
                               | [] => []
                               end |}])%list |};
          console :=
            (console w ++ flat_map computedDiagnostics (Vue.computed vue))%list |}).
Proof.
  intros Ex Hok. unfold componentOk in Hok.
  apply andb_true_iff in Hok as [Hok Hcomputed].
  apply andb_true_iff in Hok as [Hok Hdata].
  apply andb_true_iff in Hok as [Hname Hprops].
  destruct (ClassDeclaration.getName (Vue.declaration vue)) as [name|] eqn:En;
    [|discriminate].
  pose proof (classToObject_outcome extract printNode formatText vue w name Ex En)
    as H. cbv zeta in H. rewrite Hprops, Hdata, Hcomputed in H.
  destruct H as (props & data & computed & H).
  eexists. rewrite H. unfold rewritten, SourceFile.addExportAssignment,
    SourceFile.remove, afterProps, exportTrivia.
  destruct (existsb nonPrimitiveb (Vue.props vue)); reflexivity.
Qed.

Lemma classToObject_rewritten_unit_witness :
  exists expression,
    classToObject (extracting (Some documentedComponent)) calleePrinter
      noFormatting documentedWorld
    = (Normal tt,
       {| source :=
            {| SourceFile.imports :=
                 [{| ImportDeclaration.moduleSpecifier := "vue";
                     ImportDeclaration.namedImports := ["Vue"; "PropType"] |}];
               SourceFile.statements :=
                 [SourceFile.Text "const step = 1";
                  SourceFile.Text "export const version = 2";
                  SourceFile.Export
                    {| ExportAssignment.expression := expression;
                       ExportAssignment.isExportEquals := false;
                       ExportAssignment.leadingTrivia := ["/** A counter. */"] |}] |};
          console :=
            ["starting"; pairDiagnostic "title"; getterDiagnostic "label"] |}).
Proof.
  exact (classToObject_rewritten_unit
           (extracting (Some documentedComponent)) calleePrinter noFormatting
           documentedComponent documentedWorld eq_refl eq_refl).
Defined.

(** ** The array heuristic *)

Lemma startsWith_iff (s p : string) :
  JsString.startsWith s p = true <-> exists rest, s = p ++ rest.
Proof.
  unfold JsString.startsWith. revert p.
  induction s as [|d s IH]; intros [|c p]; simpl.
  - split; [intros _; now exists "" | reflexivity].
  - split; [discriminate | intros [rest H]; discriminate].
  - split; [intros _; now exists (String d s) | reflexivity].
  - destruct (ascii_dec c d) as [->|Hneq].
    + rewrite IH. split; intros [rest H]; exists rest; [now rewrite H | now injection H].
    + split; [discriminate | intros [rest H]; injection H; congruence].
Qed.

Lemma length_app (a b : string) :
  String.length (a ++ b) = String.length a + String.length b.
Proof. induction a as [|c a IH]; simpl; [reflexivity | now rewrite IH]. Qed.

Lemma substring_all (s : string) : String.substring 0 (String.length s) s = s.
Proof. induction s as [|c s IH]; simpl; [reflexivity | now rewrite IH]. Qed.

Lemma substring_app (a b : string) :
  String.substring (String.length a) (String.length b) (a ++ b) = b.
Proof. induction a as [|c a IH]; simpl; [apply substring_all | exact IH]. Qed.

Lemma substring_tail (s : string) :
  forall n, n <= String.length s ->
  exists head,
    s = head ++ String.substring n (String.length s - n) s
    /\ String.length head = n.
Proof.
  induction s as [|c s IH]; intros n Hn.
  - simpl in Hn. assert (n = 0) as -> by lia. exists "". split; reflexivity.
  - destruct n as [|n].
    + exists "". split; [|reflexivity].
      rewrite Nat.sub_0_r. now rewrite substring_all.
    + simpl in Hn. destruct (IH n) as (head & Hs & Hlen); [lia|].
      exists (String c head). simpl. split; [now rewrite <- Hs | now rewrite Hlen].
Qed.

Lemma endsWith_iff (s p : string) :
  JsString.endsWith s p = true <-> exists rest, s = rest ++ p.
Proof.
  unfold JsString.endsWith. rewrite andb_true_iff, Nat.leb_le, String.eqb_eq.
  split.
  - intros [Hle Hsub].
    destruct (substring_tail s (String.length s - String.length p)) as (head & Hs & _);
      [lia|].
    replace (String.length s - (String.length s - String.length p))
      with (String.length p) in Hs by lia.
    rewrite Hsub in Hs. now exists head.
  - intros [rest ->]. rewrite length_app. split; [lia|].
    replace (String.length rest + String.length p - String.length p)
      with (String.length rest) by lia.
    apply substring_app.
Qed.

(** X8. For a prop with a type annotation whose type is not primitive and
    has no call signature, the [type] entry is [Array as PropType<T>]
    exactly when the annotation's text [T] is [Array<] followed by some text
    or some text followed by [[]]; it is [Object as PropType<T>] for every
    other text. *)
Theorem classPropTypeToObjectPropType_array_text
    (prop : VueProp.t) (annotation : TypeNode.t) (w : World) :
  nonPrimitive prop ->
  PropertyDeclaration.getTypeNode (VueProp.declaration prop) = Some annotation ->
  TsType.getCallSignatures (PropertyDeclaration.getType (VueProp.declaration prop)) = [] ->
  let T := TypeNode.getText annotation in
  let entry := fst (classPropTypeToObjectPropType prop w) in
  (entry = Normal (typeEntry ("Array as PropType<" ++ T ++ ">"))
   <-> exists rest, T = "Array<" ++ rest \/ T = rest ++ "[]")
  /\ (entry = Normal (typeEntry ("Object as PropType<" ++ T ++ ">"))
      <-> ~ exists rest, T = "Array<" ++ rest \/ T = rest ++ "[]").
Proof.
  intros Hn Hnode Hsigs T entry. subst entry.
  rewrite (classPropType_annotated _ _ w Hn Hnode), Hsigs. simpl fst.
  fold T. cbn [List.length Nat.ltb Nat.leb].
  assert (Harray : JsString.startsWith T "Array<" || JsString.endsWith T "[]" = true
                   <-> exists rest, T = "Array<" ++ rest \/ T = rest ++ "[]").
  { rewrite orb_true_iff, startsWith_iff, endsWith_iff.
    split.
    - intros [[rest H] | [rest H]]; exists rest; auto.
    - intros [rest [H | H]]; [left | right]; now exists rest. }
  destruct (JsString.startsWith T "Array<" || JsString.endsWith T "[]").
  - split; split; intros H; try reflexivity; try (now apply Harray).
    + discriminate H.
    + exfalso. apply H. now apply Harray.
  - split; split; intros H; try reflexivity.
    + discriminate H.
    + apply Harray in H. discriminate.
    + intros H'. apply Harray in H'. discriminate.
Qed.

Lemma classPropTypeToObjectPropType_array_text_witness :
  (fst (classPropTypeToObjectPropType arrayProp sampleWorld)
   = Normal (typeEntry ("Array as PropType<" ++ "string[]" ++ ">"))
   <-> exists rest, "string[]" = "Array<" ++ rest \/ "string[]" = rest ++ "[]")
  /\ (fst (classPropTypeToObjectPropType arrayProp sampleWorld)
      = Normal (typeEntry ("Object as PropType<" ++ "string[]" ++ ">"))
      <-> ~ exists rest, "string[]" = "Array<" ++ rest \/ "string[]" = rest ++ "[]").
Proof.
  exact (classPropTypeToObjectPropType_array_text
           arrayProp (typeNode "string[]") sampleWorld eq_refl eq_refl eq_refl).
Defined.
